(** * Query understanding and ranking of the Veridian research platform

    A shallow embedding of [src/search/backend/ml_query_processor.py]
    (class [MLQueryProcessor]) and of the ranking part of
    [src/search/backend/enhanced_pubmed_search.py] (class
    [EnhancedPubMedSearch]), with the properties of its specification.

    Modelling conventions.
    - Python [str] values are Rocq [string]s; a character is an [ascii],
      read as the Unicode code point 0..255 (Latin-1).  The character
      classes ([str.isspace], the regex classes [\s] and [\w]) and
      [str.lower] are given exactly for that range.
    - Python floats are modelled by exact rationals [Q]; every comparison
      of the source is a comparison of rationals.
    - Python dicts with a fixed set of keys are records; dicts iterated in
      insertion order are association lists in source order.
    - An exception is the left side of [res]; a call of an [async def]
      function is a coroutine object [PyCoro], whose body only runs when it
      is awaited. *)

From Stdlib Require Import String Ascii List Bool Arith Lia ZArith QArith Lqa.
From Stdlib Require Import Sorting.Permutation Sorting.Sorted DecimalString.
Import ListNotations.
Open Scope string_scope.

(* ------------------------------------------------------------------ *)
(** ** Characters *)

Module PyChar.
Local Open Scope nat_scope.

Definition code (c : ascii) : nat := nat_of_ascii c.

(** [str.isspace] (also the regex class [\s]) on code points 0..255. *)
Definition is_space (c : ascii) : bool :=
  let n := code c in
  ((9 <=? n) && (n <=? 13)) || ((28 <=? n) && (n <=? 32))
  || (n =? 133) || (n =? 160).

(** The regex class [\w]: [str.isalnum()] or ['_'], on code points 0..255. *)
Definition is_word (c : ascii) : bool :=
  let n := code c in
  ((48 <=? n) && (n <=? 57)) || ((65 <=? n) && (n <=? 90))
  || (n =? 95) || ((97 <=? n) && (n <=? 122))
  || (n =? 170) || (n =? 178) || (n =? 179) || (n =? 181) || (n =? 185)
  || (n =? 186) || ((188 <=? n) && (n <=? 190))
  || ((192 <=? n) && (n <=? 214)) || ((216 <=? n) && (n <=? 246))
  || ((248 <=? n) && (n <=? 255)).

(** [str.lower] of one character, on code points 0..255. *)
Definition lower (c : ascii) : ascii :=
  let n := code c in
  if ((65 <=? n) && (n <=? 90)) || ((192 <=? n) && (n <=? 222) && negb (n =? 215))
  then ascii_of_nat (n + 32) else c.

End PyChar.

(* ------------------------------------------------------------------ *)
(** ** Strings *)

Module PyStr.
Import PyChar.

(** [s.lower()] *)
Fixpoint lower (s : string) : string :=
  match s with
  | EmptyString => EmptyString
  | String c r => String (PyChar.lower c) (lower r)
  end.

(** [s.lstrip()] *)
Fixpoint lstrip (s : string) : string :=
  match s with
  | EmptyString => EmptyString
  | String c r => if is_space c then lstrip r else s
  end.

(** [s.rstrip()] *)
Fixpoint rstrip (s : string) : string :=
  match s with
  | EmptyString => EmptyString
  | String c r =>
      let r' := rstrip r in
      if is_space c && String.eqb r' EmptyString then EmptyString
      else String c r'
  end.

(** [s.strip()] *)
Definition strip (s : string) : string := rstrip (lstrip s).

(** [p in s] for strings: substring test ([""] occurs everywhere). *)
Fixpoint contains (p s : string) : bool :=
  String.prefix p s
  || match s with
     | EmptyString => false
     | String _ r => contains p r
     end.

(** [s.startswith(p)] *)
Definition startswith (s p : string) : bool := String.prefix p s.

(** [s.split()]: maximal runs of non-whitespace characters. *)
Fixpoint split_aux (cur : string) (s : string) : list string :=
  match s with
  | EmptyString => if String.eqb cur EmptyString then [] else [cur]
  | String c r =>
      if is_space c
      then (if String.eqb cur EmptyString then [] else [cur]) ++ split_aux EmptyString r
      else split_aux (cur ++ String c EmptyString) r
  end.

Definition split (s : string) : list string := split_aux EmptyString s.

End PyStr.

(* ------------------------------------------------------------------ *)
(** ** [MLQueryProcessor._normalize_query] *)

Module Normalize.
Import PyChar PyStr.

(** [re.sub(r'[^\w\s-]', ' ', s)] *)
Fixpoint sub_nonword (s : string) : string :=
  match s with
  | EmptyString => EmptyString
  | String c r =>
      String (if is_word c || is_space c || Ascii.eqb c "-"%char then c else " "%char)
             (sub_nonword r)
  end.

(** [re.sub(r'\s+', ' ', s)]: every maximal run of whitespace becomes one
    space; [in_ws] records that the previous character was whitespace. *)
Fixpoint collapse_ws_aux (in_ws : bool) (s : string) : string :=
  match s with
  | EmptyString => EmptyString
  | String c r =>
      if is_space c
      then (if in_ws then collapse_ws_aux true r
            else String " "%char (collapse_ws_aux true r))
      else String c (collapse_ws_aux false r)
  end.

Definition collapse_ws (s : string) : string := collapse_ws_aux false s.

(** [re.sub(r'\s+', ' ', re.sub(r'[^\w\s-]', ' ', query.lower().strip())).strip()] *)
Definition normalize_query (query : string) : string :=
  strip (collapse_ws (sub_nonword (strip (lower query)))).

End Normalize.

(** Shape of a normalised query: lower-case word characters, hyphens and
    single spaces, no whitespace at either end. *)
Module NormalForm.
Import PyChar PyStr.

Fixpoint all_chars (f : ascii -> bool) (s : string) : bool :=
  match s with
  | EmptyString => true
  | String c r => f c && all_chars f r
  end.

Fixpoint no_double_space (s : string) : bool :=
  match s with
  | String c ((String d _) as r) => negb (is_space c && is_space d) && no_double_space r
  | _ => true
  end.

Definition starts_space (s : string) : bool :=
  match s with
  | String c _ => is_space c
  | EmptyString => false
  end.

Fixpoint ends_space (s : string) : bool :=
  match s with
  | EmptyString => false
  | String c EmptyString => is_space c
  | String _ r => ends_space r
  end.

Definition allowed_char (c : ascii) : bool :=
  is_word c || Ascii.eqb c "-"%char || Ascii.eqb c " "%char.

(** [c.lower() == c] *)
Definition lowered (c : ascii) : bool := Ascii.eqb (PyChar.lower c) c.

(** The characters left by [re.sub(r'[^\w\s-]', ' ', ...)] on a lower-cased string. *)
Definition sub_ok (c : ascii) : bool :=
  lowered c && (is_word c || is_space c || Ascii.eqb c "-"%char).

(** The characters of a normalised query. *)
Definition normal_char (c : ascii) : bool := lowered c && allowed_char c.

End NormalForm.


(* ------------------------------------------------------------------ *)
(** ** Regular expressions of the form [\b(a1|a2|...)\b] with [re.IGNORECASE]

    Every pattern the processor matches is a word-bounded alternation of
    literals.  At a position, [\b] holds when exactly one of the characters
    around it is a word character (outside the string counts as non-word). *)

Module Regex.
Import PyChar.

Definition word_at (c : option ascii) : bool :=
  match c with Some c => is_word c | None => false end.

Definition head (s : string) : option ascii :=
  match s with String c _ => Some c | EmptyString => None end.

Definition boundary (prev next : option ascii) : bool :=
  xorb (word_at prev) (word_at next).

(** Case-insensitive match of the literal [p] at the start of [s]: the
    matched text, the last character it consumed and the rest of [s]. *)
Fixpoint match_lit (p s : string) (last : option ascii)
  : option (string * option ascii * string) :=
  match p, s with
  | EmptyString, _ => Some (EmptyString, last, s)
  | String pc pr, String sc sr =>
      if Ascii.eqb (PyChar.lower pc) (PyChar.lower sc) then
        match match_lit pr sr (Some sc) with
        | Some (m, l, rest) => Some (String sc m, l, rest)
        | None => None
        end
      else None
  | String _ _, EmptyString => None
  end.

(** The first alternative (in pattern order) matching at this position,
    with both word boundaries; returns the text of group 1. *)
Fixpoint first_alt (alts : list string) (prev : option ascii) (s : string)
  : option string :=
  match alts with
  | [] => None
  | a :: rest =>
      let here :=
        if boundary prev (head s) then
          match match_lit a s prev with
          | Some (m, l, r) => if boundary l (head r) then Some m else None
          | None => None
          end
        else None in
      match here with
      | Some m => Some m
      | None => first_alt rest prev s
      end
  end.

(** [re.search(r'\b(a1|...)\b', s, re.IGNORECASE)] is not [None]. *)
Fixpoint search_aux (alts : list string) (prev : option ascii) (s : string) : bool :=
  match first_alt alts prev s with
  | Some _ => true
  | None =>
      match s with
      | EmptyString => false
      | String c r => search_aux alts (Some c) r
      end
  end.

Definition search (alts : list string) (s : string) : bool := search_aux alts None s.

(** [re.findall(r'\b(a1|...)\b', s, re.IGNORECASE)]: non-overlapping
    matches from left to right; [skip] counts the characters of the last
    match still to be consumed. *)
Fixpoint findall_aux (alts : list string) (prev : option ascii) (skip : nat) (s : string)
  : list string :=
  match s with
  | EmptyString => []
  | String c r =>
      match skip with
      | S k => findall_aux alts (Some c) k r
      | O =>
          match first_alt alts prev s with
          | Some m => m :: findall_aux alts (Some c) (String.length m - 1) r
          | None => findall_aux alts (Some c) 0 r
          end
      end
  end.

Definition findall (alts : list string) (s : string) : list string :=
  findall_aux alts None 0 s.

End Regex.

(** [list(set(xs))]: the distinct elements.  CPython's set iteration order
    for strings depends on the per-process hash seed; the model keeps the
    first occurrence of every value. *)
Fixpoint dedup (xs : list string) : list string :=
  match xs with
  | [] => []
  | x :: r => x :: filter (fun y => negb (String.eqb x y)) (dedup r)
  end.

(* ------------------------------------------------------------------ *)
(** ** Python helpers on numbers *)

Module PyNum.
Open Scope Q_scope.

(** [a < b] on floats. *)
Definition lt (a b : Q) : bool := negb (Qle_bool b a).

(** [min(a, b)]: [b] when [b < a], else [a]. *)
Definition min (a b : Q) : Q := if lt b a then b else a.

(** [max(a, b)]: [b] when [b > a], else [a]. *)
Definition max (a b : Q) : Q := if lt a b then b else a.

Definition of_nat (n : nat) : Q := inject_Z (Z.of_nat n).

End PyNum.

(* ------------------------------------------------------------------ *)
(** ** [MLQueryProcessor]: static tables *)

Module Tables.

(** [_initialize_mesh_terms], in insertion order. *)
Definition mesh_terms_table : list (string * string) := [
  ("heart attack", "Myocardial Infarction");
  ("heart disease", "Heart Diseases");
  ("high blood pressure", "Hypertension");
  ("stroke", "Stroke");
  ("cardiac", "Heart Diseases");
  ("diabetes", "Diabetes Mellitus");
  ("sugar diabetes", "Diabetes Mellitus");
  ("thyroid", "Thyroid Diseases");
  ("asthma", "Asthma");
  ("lung disease", "Lung Diseases");
  ("pneumonia", "Pneumonia");
  ("copd", "Pulmonary Disease, Chronic Obstructive");
  ("cancer", "Neoplasms");
  ("tumor", "Neoplasms");
  ("breast cancer", "Breast Neoplasms");
  ("lung cancer", "Lung Neoplasms");
  ("skin cancer", "Skin Neoplasms");
  ("alzheimer", "Alzheimer Disease");
  ("dementia", "Dementia");
  ("parkinson", "Parkinson Disease");
  ("epilepsy", "Epilepsy");
  ("seizure", "Seizures");
  ("depression", "Depression");
  ("anxiety", "Anxiety Disorders");
  ("ptsd", "Stress Disorders, Post-Traumatic");
  ("bipolar", "Bipolar Disorder");
  ("covid", "COVID-19");
  ("coronavirus", "COVID-19");
  ("hiv", "HIV Infections");
  ("aids", "Acquired Immunodeficiency Syndrome");
  ("tuberculosis", "Tuberculosis");
  ("malaria", "Malaria");
  ("arthritis", "Arthritis");
  ("osteoporosis", "Osteoporosis");
  ("joint pain", "Arthralgia");
  ("machine learning", "Machine Learning");
  ("artificial intelligence", "Artificial Intelligence");
  ("deep learning", "Deep Learning");
  ("neural network", "Neural Networks, Computer");
  ("gene therapy", "Genetic Therapy");
  ("immunotherapy", "Immunotherapy");
  ("telemedicine", "Telemedicine")].

(** [_initialize_medical_abbreviations] *)
Definition medical_abbreviations_table : list (string * string) := [
  ("MI", "Myocardial Infarction");
  ("CVD", "Cardiovascular Diseases");
  ("CHF", "Heart Failure");
  ("COPD", "Pulmonary Disease, Chronic Obstructive");
  ("DM", "Diabetes Mellitus");
  ("HTN", "Hypertension");
  ("CAD", "Coronary Artery Disease");
  ("CKD", "Renal Insufficiency, Chronic");
  ("PTSD", "Stress Disorders, Post-Traumatic");
  ("IBD", "Inflammatory Bowel Diseases");
  ("RA", "Arthritis, Rheumatoid");
  ("MS", "Multiple Sclerosis");
  ("ALS", "Amyotrophic Lateral Sclerosis");
  ("AD", "Alzheimer Disease");
  ("PD", "Parkinson Disease");
  ("AIDS", "Acquired Immunodeficiency Syndrome");
  ("HIV", "HIV Infections");
  ("TB", "Tuberculosis");
  ("UTI", "Urinary Tract Infections");
  ("ICU", "Intensive Care Units");
  ("ER", "Emergency Service, Hospital")].

(** [_initialize_synonym_map] *)
Definition synonym_map : list (string * list string) := [
  ("treatment", ["therapy"; "intervention"; "management"]);
  ("prevention", ["prophylaxis"; "preventive"; "preventative"]);
  ("diagnosis", ["diagnostic"; "screening"; "detection"]);
  ("symptoms", ["signs"; "manifestations"; "clinical features"]);
  ("causes", ["etiology"; "pathogenesis"; "risk factors"]);
  ("elderly", ["aged"; "geriatric"; "older adults"]);
  ("children", ["pediatric"; "kids"; "youth"]);
  ("women", ["female"; "maternal"]);
  ("men", ["male"; "paternal"]);
  ("medication", ["drug"; "pharmaceutical"; "medicine"]);
  ("surgery", ["surgical"; "operation"; "procedure"]);
  ("study", ["research"; "investigation"; "analysis"]);
  ("effectiveness", ["efficacy"; "outcome"; "results"])].

(** The [relationships] table of [_get_related_mesh_terms]. *)
Definition mesh_relationships : list (string * list string) := [
  ("Diabetes Mellitus", ["Insulin"; "Glucose"; "Diabetic Complications"; "Metabolic Syndrome"]);
  ("Hypertension", ["Blood Pressure"; "Cardiovascular Diseases"; "Antihypertensive Agents"]);
  ("Heart Diseases", ["Myocardial Infarction"; "Heart Failure"; "Coronary Artery Disease"]);
  ("Neoplasms", ["Oncology"; "Chemotherapy"; "Radiotherapy"; "Carcinogenesis"]);
  ("Depression", ["Antidepressive Agents"; "Mental Health"; "Anxiety Disorders"]);
  ("COVID-19", ["SARS-CoV-2"; "Pandemic"; "Vaccines"; "Respiratory Tract Infections"])].

(** [demographic_patterns] of [_extract_medical_entities]. *)
Definition demographic_patterns : list (string * list string) := [
  ("age", ["infant"; "child"; "adolescent"; "adult"; "elderly"; "aged"; "geriatric"]);
  ("gender", ["male"; "female"; "men"; "women"; "man"; "woman"]);
  ("population", ["pregnant"; "pregnancy"; "postmenopausal"; "pediatric"])].

(** [study_type_patterns] of [_extract_medical_entities]. *)
Definition study_type_patterns : list (string * list string) := [
  ("randomized controlled trial", ["rct"; "randomized controlled trial"; "clinical trial"]);
  ("meta-analysis", ["meta-analysis"; "systematic review"]);
  ("case study", ["case study"; "case report"]);
  ("cohort study", ["cohort study"; "longitudinal"])].

(** [intent_patterns] of [_classify_intent]. *)
Definition intent_patterns : list (string * list string) := [
  ("treatment", ["treat"; "therapy"; "intervention"; "cure"; "medication"; "drug"]);
  ("diagnosis", ["diagnos"; "detect"; "screen"; "test"; "identify"]);
  ("prevention", ["prevent"; "avoid"; "prophylax"; "vaccination"; "immuniz"]);
  ("symptoms", ["symptom"; "sign"; "manifest"; "present"]);
  ("causes", ["cause"; "etiology"; "pathogen"; "risk factor"]);
  ("prognosis", ["prognosis"; "outcome"; "survival"; "mortality"]);
  ("epidemiology", ["prevalence"; "incidence"; "epidemiol"; "population"]);
  ("mechanism", ["mechanism"; "pathway"; "molecular"; "cellular"])].

(** The three patterns of [_analyze_sentiment]. *)
Definition urgency_pattern : list string :=
  ["urgent"; "emergency"; "acute"; "severe"; "critical"; "immediate"].
Definition uncertainty_pattern : list string :=
  ["possible"; "potential"; "may"; "might"; "could"; "uncertain"].
Definition specificity_pattern : list string :=
  ["specific"; "particular"; "exact"; "precise"].

(** [r'\b(and|or|not)\b'] of [_assess_complexity]. *)
Definition connective_pattern : list string := ["and"; "or"; "not"].

End Tables.


(* ------------------------------------------------------------------ *)
(** ** Python objects flowing through [process_query] *)

Module Py.

(** The exceptions the modelled code can raise. *)
Inductive exn : Type :=
| TypeError
| AttributeError
| KeyError.

Definition res (A : Type) : Type := (exn + A)%type.

(** A reading of [datetime.now()], in microseconds since the epoch; the
    clock is an explicit input of every operation that reads it. *)
Definition datetime : Type := Z.

(** A value bound to a Python variable that the code uses as an [A]:
    either an [A] or the coroutine object returned by calling an
    [async def] function, whose body runs (at some clock reading) only
    when it is awaited. *)
Inductive pyobj (A : Type) : Type :=
| PyVal (v : A)
| PyCoro (body : datetime -> res A).

Arguments PyVal {A} v.
Arguments PyCoro {A} body.

(** [await x] at clock reading [now]; a plain value is not awaitable. *)
Definition await {A} (x : pyobj A) (now : datetime) : res A :=
  match x with
  | PyCoro body => body now
  | PyVal _ => inl TypeError
  end.

(** Truthiness of an optional string ([None] and [''] are false). *)
Definition truthy (s : option string) : bool :=
  match s with
  | Some v => negb (String.eqb v EmptyString)
  | None => false
  end.

End Py.

(* ------------------------------------------------------------------ *)
(** ** [MLQueryProcessor]: entities, semantic analysis, parameters *)

Module MLQueryProcessor.
Import Py Tables.
Open Scope Q_scope.

Record mesh_entity := { me_original : string; me_mesh : string; me_confidence : Q }.
Record abbreviation_entity := { ab_abbreviation : string; ab_expanded : string; ab_confidence : Q }.
Record demographic_entity := { de_type : string; de_values : list string; de_confidence : Q }.
Record study_type_entity := { st_type : string; st_confidence : Q }.

(** The [entities] dict of [_extract_medical_entities]; [conditions] and
    [treatments] are never filled by the code. *)
Record entities := {
  mesh_terms : list mesh_entity;
  abbreviations : list abbreviation_entity;
  conditions : list string;
  treatments : list string;
  demographics : list demographic_entity;
  study_types : list study_type_entity }.

(** [_extract_medical_entities(query)] (body of the [async def]). *)
Definition extract_medical_entities (query : string) : entities :=
  {| mesh_terms :=
       flat_map (fun '(term, mesh) =>
         if PyStr.contains term query
         then [{| me_original := term; me_mesh := mesh; me_confidence := 0.9 |}]
         else []) mesh_terms_table;
     abbreviations :=
       flat_map (fun '(abbrev, full) =>
         if Regex.search [abbrev] query
         then [{| ab_abbreviation := abbrev; ab_expanded := full; ab_confidence := 0.85 |}]
         else []) medical_abbreviations_table;
     conditions := [];
     treatments := [];
     demographics :=
       flat_map (fun '(demo_type, pattern) =>
         match Regex.findall pattern query with
         | [] => []
         | matches =>
             [{| de_type := demo_type; de_values := dedup (map PyStr.lower matches);
                 de_confidence := 0.8 |}]
         end) demographic_patterns;
     study_types :=
       flat_map (fun '(study_type, pattern) =>
         if Regex.search pattern query
         then [{| st_type := study_type; st_confidence := 0.9 |}]
         else []) study_type_patterns |}.

Record intent_entry := { it_type : string; it_confidence : Q }.
Record sentiment := { urgency : Q; uncertainty : Q; specificity : Q }.
Record focus := { primary : option string; secondary : list string; fo_confidence : Q }.
Record synonym_entry := { sy_original : string; sy_synonyms : list string; sy_relevance : Q }.
Record related_entry := { re_primary : string; re_related : list string; re_relevance : Q }.

(** The [analysis] dict of [_perform_semantic_analysis]. *)
Record semantic_analysis := {
  intent : list intent_entry;
  sent : sentiment;
  complexity : Q;
  foc : focus;
  synonyms : list synonym_entry;
  related_terms : list related_entry }.

(** [_classify_intent] *)
Definition classify_intent (query : string) : list intent_entry :=
  let intents :=
    flat_map (fun '(it, pattern) =>
      if Regex.search pattern query
      then [{| it_type := it; it_confidence := 0.8 |}] else []) intent_patterns in
  match intents with
  | [] => [{| it_type := "general"; it_confidence := 0.5 |}]
  | _ => intents
  end.

(** [_analyze_sentiment] *)
Definition analyze_sentiment (query : string) : sentiment :=
  {| urgency := if Regex.search urgency_pattern query then 0.8 else 0.2;
     uncertainty := if Regex.search uncertainty_pattern query then 0.7 else 0.3;
     specificity := if Regex.search specificity_pattern query then 0.9 else 0.5 |}.

(** [sum(len(v) for v in entities.values() if isinstance(v, list))] *)
Definition entity_count (e : entities) : nat :=
  length (mesh_terms e) + length (abbreviations e) + length (conditions e)
  + length (treatments e) + length (demographics e) + length (study_types e).

(** [_assess_complexity] *)
Definition assess_complexity (query : string) (e : entities) : Q :=
  let c0 := 0.0 in
  let c1 := c0 + PyNum.min (PyNum.of_nat (length (PyStr.split query)) * 0.1) 1 in
  let c2 := c1 + PyNum.min (PyNum.of_nat (entity_count e) * 0.15) 1 in
  let c3 := if Regex.search connective_pattern query then c2 + 0.3 else c2 in
  PyNum.min c3 1.

(** [_determine_focus] *)
Definition determine_focus (query : string) (e : entities) : focus :=
  match mesh_terms e with
  | [] => {| primary := None; secondary := []; fo_confidence := 0 |}
  | m :: rest =>
      {| primary := Some (me_mesh m); secondary := map me_mesh rest; fo_confidence := 0.9 |}
  end.

(** [_expand_with_synonyms] *)
Definition expand_with_synonyms (query : string) : list synonym_entry :=
  flat_map (fun '(term, syns) =>
    if PyStr.contains term query
    then [{| sy_original := term; sy_synonyms := syns; sy_relevance := 0.7 |}]
    else []) synonym_map.

(** [_get_related_mesh_terms] *)
Definition get_related_mesh_terms (mesh_term : string) : list string :=
  match find (fun '(k, _) => String.eqb k mesh_term) mesh_relationships with
  | Some (_, v) => v
  | None => []
  end.

(** [_find_related_terms] *)
Definition find_related_terms (e : entities) : list related_entry :=
  flat_map (fun m =>
    match get_related_mesh_terms (me_mesh m) with
    | [] => []
    | rel => [{| re_primary := me_mesh m; re_related := rel; re_relevance := 0.6 |}]
    end) (mesh_terms e).

(** The analysis built by [_perform_semantic_analysis] once [entities]
    is the entities dict. *)
Definition perform_semantic_analysis (query : string) (e : entities) : semantic_analysis :=
  {| intent := classify_intent query;
     sent := analyze_sentiment query;
     complexity := assess_complexity query e;
     foc := determine_focus query e;
     synonyms := expand_with_synonyms query;
     related_terms := find_related_terms e |}.

(** [_calculate_search_confidence] *)
Definition calculate_search_confidence (a : semantic_analysis) : Q :=
  let c0 := 0.5 in
  let c1 := if truthy (primary (foc a)) then c0 + 0.3 else c0 in
  let c2 :=
    match intent a with
    | i :: _ => if PyNum.lt 0.7 (it_confidence i) then c1 + 0.2 else c1
    | [] => c1
    end in
  let c3 := if PyNum.lt 0.6 (uncertainty (sent a)) then c2 - 0.1 else c2 in
  PyNum.min (PyNum.max c3 0) 1.

Record advanced := {
  adv_mesh_terms : list string;
  adv_field_restrictions : list string;
  adv_date_range : option datetime;   (** [{'start': ...}] or [None] *)
  adv_study_types : list string;
  adv_languages : list string }.

(** The parameters dict; the fallback dict has no ['advanced'] key. *)
Record search_params := {
  sp_query : string;
  sp_filters : list (string * string);
  sp_sort : string;
  sp_advanced : option advanced;
  sp_confidence : Q;
  sp_explanation : list string }.

(** The caller's context dict, as its keys and printed values. *)
Definition context : Type := list (string * string).

Fixpoint join (sep : string) (xs : list string) : string :=
  match xs with
  | [] => EmptyString
  | [x] => x
  | x :: r => x ++ sep ++ join sep r
  end.

(** The double-quote character, code point 34. *)
Definition dquote : string := String "034"%char EmptyString.

(** [f'"{s}"{tag}'] *)
Definition quote (s tag : string) : string := dquote ++ s ++ dquote ++ tag.

(** [_generate_search_parameters(semantic_analysis, user_context)] (body of
    the [async def]) once [semantic_analysis] is the analysis dict; [now]
    is the reading of [datetime.now()]. *)
Definition generate_search_parameters (a : semantic_analysis) (user_context : context)
    (now : datetime) : search_params :=
  let query_parts :=
    ((if truthy (primary (foc a)) then
       match primary (foc a) with Some p => [quote p "[MeSH Terms]"] | None => [] end
     else [])
    ++ map (fun t => quote t "[MeSH Terms]") (secondary (foc a))
    ++ flat_map (fun syn => map (fun s => quote s "[Title/Abstract]") (sy_synonyms syn))
                (synonyms a))%list in
  let is_treatment := existsb (fun i => String.eqb (it_type i) "treatment") (intent a) in
  let is_urgent := PyNum.lt 0.7 (urgency (sent a)) in
  let is_epi := existsb (fun i => String.eqb (it_type i) "epidemiology") (intent a) in
  {| sp_query := join " OR " query_parts;
     sp_filters :=
       if is_treatment
       then [("publication_type", "clinical trial,randomized controlled trial")] else [];
     sp_sort := if is_epi then "publication date" else "relevance";
     sp_advanced := Some
       {| adv_mesh_terms := []; adv_field_restrictions := [];
          adv_date_range := if is_urgent then Some (now - 365 * 86400 * 1000000)%Z else None;
          adv_study_types := []; adv_languages := ["eng"] |};
     sp_confidence := calculate_search_confidence a;
     sp_explanation :=
       ((if is_treatment then ["Focusing on treatment studies"] else [])
       ++ (if is_urgent
           then ["Prioritizing recent publications due to urgency indicators"] else [])
       ++ (if is_epi then ["Sorting by date for epidemiological trends"] else []))%list |}.

(** A parameters dict with its clock-dependent ['date_range'] cleared, to
    compare parameters generated at two clock readings. *)
Definition erase_date_range (sp : search_params) : search_params :=
  {| sp_query := sp_query sp; sp_filters := sp_filters sp; sp_sort := sp_sort sp;
     sp_advanced :=
       option_map (fun ad =>
         {| adv_mesh_terms := adv_mesh_terms ad;
            adv_field_restrictions := adv_field_restrictions ad;
            adv_date_range := None; adv_study_types := adv_study_types ad;
            adv_languages := adv_languages ad |}) (sp_advanced sp);
     sp_confidence := sp_confidence sp; sp_explanation := sp_explanation sp |}.

(** [_basic_query_processing] *)
Definition basic_query_processing (query : string) : search_params :=
  {| sp_query := quote query "[Title/Abstract]";
     sp_filters := [];
     sp_sort := "relevance";
     sp_advanced := None;
     sp_confidence := 0.3;
     sp_explanation := ["Using basic keyword search as fallback"] |}.

(** The coroutine objects created by calling the three [async def] stages.
    [_perform_semantic_analysis] reads [entities.values()] (in
    [_assess_complexity]) and [_generate_search_parameters] reads
    [semantic_analysis['focus']]: on a coroutine object the first is an
    [AttributeError], the second a [TypeError]. *)
Definition extract_medical_entities_call (query : string) : pyobj entities :=
  PyCoro (fun _ => inr (extract_medical_entities query)).

Definition perform_semantic_analysis_call (query : string) (e : pyobj entities)
  : pyobj semantic_analysis :=
  PyCoro (fun _ =>
    match e with
    | PyVal ents => inr (perform_semantic_analysis query ents)
    | PyCoro _ => inl AttributeError
    end).

Definition generate_search_parameters_call (a : pyobj semantic_analysis) (user_context : context)
  : pyobj search_params :=
  PyCoro (fun now =>
    match a with
    | PyVal an => inr (generate_search_parameters an user_context now)
    | PyCoro _ => inl TypeError
    end).

(** State of a processor: [query_history] and [user_preferences]. *)
(** A history entry.  [i_complexity] is the ['complexity'] value of an
    entry loaded from the data file, as a JSON number, and [None] when the
    key is absent, as in every entry [_update_user_model] appends. *)
Record interaction := {
  i_query : string; i_timestamp : datetime; i_context : context; i_processed : bool;
  i_complexity : option Q }.

Record user_preferences := {
  preferred_domains : option (list (string * nat));
  complexity_preference : option Q }.

Record processor := {
  query_history : list interaction;
  user_prefs : user_preferences }.

(** A processor created by [__init__] when its data file does not exist:
    [_load_query_history] and [_load_user_preferences] give [[]] and [{}]. *)
Definition new_processor : processor :=
  {| query_history := [];
     user_prefs := {| preferred_domains := None; complexity_preference := None |} |}.

(** [xs[-n:]] *)
Definition lastn {A} (n : nat) (xs : list A) : list A := skipn (length xs - n) xs.

(** [domains[k] = domains.get(k, 0) + 1] on an insertion-ordered dict. *)
Fixpoint bump (k : string) (d : list (string * nat)) : list (string * nat) :=
  match d with
  | [] => [(k, 1%nat)]
  | (k', n) :: r => if String.eqb k k' then (k', S n) :: r else (k', n) :: bump k r
  end.

(** [_analyze_user_patterns]; [q.get('complexity', 0.5)] is the entry's
    ['complexity'] value, or [0.5] when it has none. *)
Definition analyze_user_patterns (p : processor) : processor :=
  let h := query_history p in
  if (length h <? 5)%nat then p else
  let recent := lastn 10 h in
  let domains :=
    fold_left (fun d q =>
      let t := i_query q in
      let d1 := if PyStr.contains "cancer" t || PyStr.contains "tumor" t
                then bump "oncology" d else d in
      if PyStr.contains "heart" t || PyStr.contains "cardiac" t
      then bump "cardiology" d1 else d1) recent [] in
  let avg :=
    fold_left (fun acc q => acc + match i_complexity q with Some c => c | None => 0.5 end)
              recent 0
    / PyNum.of_nat (length recent) in
  {| query_history := h;
     user_prefs := {| preferred_domains := Some domains;
                      complexity_preference := Some avg |} |}.

(** [_update_user_model(query, context)]; the final [_save_user_data]
    writes the file and catches every error, without touching the state. *)
Definition update_user_model (p : processor) (query : string) (ctx : context)
    (now : datetime) : processor :=
  let it := {| i_query := query; i_timestamp := now; i_context := ctx; i_processed := true;
            i_complexity := None |} in
  let h := (query_history p ++ [it])%list in
  let h := if (100 <? length h)%nat then lastn 100 h else h in
  analyze_user_patterns {| query_history := h; user_prefs := user_prefs p |}.

(** The [try] block of [process_query]: none of its statements raises, the
    three stage calls only create coroutine objects. *)
Definition process_query_try (p : processor) (user_query : string) (ctx : context)
    (now : datetime) : res (processor * pyobj search_params) :=
  let normalized_query := Normalize.normalize_query user_query in
  let ents := extract_medical_entities_call normalized_query in
  let analysis := perform_semantic_analysis_call normalized_query ents in
  let search_params := generate_search_parameters_call analysis ctx in
  let p' := update_user_model p user_query ctx now in
  inr (p', search_params).

(** [process_query(user_query, user_context)]: the new processor state and
    the returned object. *)
Definition process_query (p : processor) (user_query : string) (ctx : context)
    (now : datetime) : processor * pyobj search_params :=
  match process_query_try p user_query ctx now with
  | inr r => r
  | inl _ => (p, PyVal (basic_query_processing user_query))
  end.

Record suggestion := { sg_text : string; sg_type : string; sg_description : string;
                       sg_confidence : Q }.

(** [get_search_suggestions(partial_query)] *)
Definition get_search_suggestions (p : processor) (partial_query : string) : list suggestion :=
  let lex :=
    flat_map (fun '(term, mesh) =>
      if PyStr.startswith term (PyStr.lower partial_query)
      then [{| sg_text := term; sg_type := "mesh"; sg_description := "Search for: " ++ mesh;
               sg_confidence := 0.9 |}]
      else []) mesh_terms_table in
  let hist :=
    flat_map (fun item =>
      if PyStr.contains (PyStr.lower partial_query) (PyStr.lower (i_query item))
      then [{| sg_text := i_query item; sg_type := "history";
               sg_description := "From your search history"; sg_confidence := 0.6 |}]
      else []) (query_history p) in
  firstn 8 (lex ++ hist)%list.

End MLQueryProcessor.

(* ------------------------------------------------------------------ *)
(** ** [EnhancedPubMedSearch]: relevance scores and ranking *)

Module EnhancedPubMedSearch.
Import Py.
Open Scope Q_scope.

(** A paper dict as built by [_process_paper_summary]; only the keys the
    scoring reads are kept, plus its [paper_id]. *)
Record paper := {
  paper_id : string;
  title : string;
  abstract : string;
  year : option Z;
  publication_types : list string }.

(** What the scoring reads from [ml_params]:
    [ml_params.get('focus', {}).get('primary')] and
    [ml_params.get('advanced', {}).get('study_types', [])]. *)
Record ml_params := {
  focus_primary : option string;
  advanced_study_types : list string }.

(** [_calculate_text_relevance(text, query, ml_params)] *)
Definition calculate_text_relevance (text query : string) (mp : ml_params) : Q :=
  let r0 := 0.0 in
  let r1 := if PyStr.contains query text then r0 + 0.8 else r0 in
  let query_words := PyStr.split query in
  let matched_words :=
    filter (fun w => (2 <? String.length w)%nat && PyStr.contains w text) query_words in
  let r2 :=
    match query_words with
    | [] => r1
    | _ => r1 + (PyNum.of_nat (length matched_words) / PyNum.of_nat (length query_words)) * 0.6
    end in
  let r3 :=
    if truthy (focus_primary mp) then
      match focus_primary mp with
      | Some m => if PyStr.contains (PyStr.lower m) text then r2 + 0.3 else r2
      | None => r2
      end
    else r2 in
  PyNum.min r3 1.0.

(** [_calculate_relevance_score(paper, ml_params, original_query)];
    [now_year] is [datetime.now().year]. *)
Definition calculate_relevance_score (p : paper) (mp : ml_params) (original_query : string)
    (now_year : Z) : Q :=
  let ttl := PyStr.lower (title p) in
  let abs := PyStr.lower (abstract p) in
  let query := PyStr.lower original_query in
  let s0 := 0.5 in
  let s1 := s0 + calculate_text_relevance ttl query mp * 0.4 in
  let s2 := s1 + calculate_text_relevance abs query mp * 0.3 in
  let s3 :=
    match year p with
    | Some y => if negb (Z.eqb y 0) && Z.leb (now_year - 2) y then s2 + 0.1 else s2
    | None => s2
    end in
  let s4 :=
    match advanced_study_types mp with
    | [] => s3
    | sts =>
        if existsb (fun pub_type =>
             existsb (fun st => PyStr.contains (PyStr.lower st) (PyStr.lower pub_type)) sts)
           (publication_types p)
        then s3 + 0.2 else s3
    end in
  PyNum.min s4 1.0.

(** A paper dict extended with its ['ml_score']. *)
Definition scored_paper : Type := (paper * Q)%type.

Definition ml_score (sp : scored_paper) : Q := snd sp.

(** [xs.sort(key=k, reverse=True)] is a stable sort by descending key: the
    stable insertion sort, [x] going before every element whose key is not
    strictly greater. *)
Section SortDesc.
Variable A : Type.
Variable key : A -> Q.

Fixpoint insert_desc (x : A) (l : list A) : list A :=
  match l with
  | [] => [x]
  | y :: ys => if PyNum.lt (key x) (key y) then y :: insert_desc x ys else x :: y :: ys
  end.

Fixpoint sort_desc (l : list A) : list A :=
  match l with
  | [] => []
  | x :: xs => insert_desc x (sort_desc xs)
  end.
End SortDesc.

Arguments insert_desc {A} key x l.
Arguments sort_desc {A} key l.

(** [_apply_ml_ranking(papers, ml_params, original_query)] *)
Definition apply_ml_ranking (papers : list paper) (mp : ml_params) (original_query : string)
    (now_year : Z) : list scored_paper :=
  let scored_papers :=
    map (fun p => (p, calculate_relevance_score p mp original_query now_year)) papers in
  sort_desc ml_score scored_papers.

End EnhancedPubMedSearch.

(* ------------------------------------------------------------------ *)
(** ** The confidence rule in the words of the specification *)

Module ConfidenceRule.
Import MLQueryProcessor.
Open Scope Q_scope.

(** The highest-confidence entry of an intent list (the first one among
    equals). *)
Fixpoint highest_intent (l : list intent_entry) : option intent_entry :=
  match l with
  | [] => None
  | i :: r =>
      match highest_intent r with
      | None => Some i
      | Some j => if PyNum.lt (it_confidence i) (it_confidence j) then Some j else Some i
      end
  end.

Definition clamp01 (x : Q) : Q :=
  if Qle_bool x 0 then 0 else if Qle_bool 1 x then 1 else x.

(** Base 0.5; +0.3 if [focus.primary] is non-null; +0.2 if the
    highest-confidence intent has confidence > 0.7; -0.1 if
    [sentiment.uncertainty] > 0.6; clamped to [0,1]. *)
Definition spec_confidence (a : semantic_analysis) : Q :=
  clamp01
    (0.5
     + (match primary (foc a) with Some _ => 0.3 | None => 0 end)
     + (match highest_intent (intent a) with
        | Some i => if Qle_bool (it_confidence i) 0.7 then 0 else 0.2
        | None => 0
        end)
     - (if Qle_bool (uncertainty (sent a)) 0.6 then 0 else 0.1)).

End ConfidenceRule.

(* ------------------------------------------------------------------ *)
(** ** Suggestions and history, in the words of the specification *)

Module SuggestionRule.
Import Py MLQueryProcessor.
Open Scope Q_scope.

Definition lexicon_suggestion (e : string * string) : suggestion :=
  {| sg_text := fst e; sg_type := "mesh"; sg_description := "Search for: " ++ snd e;
     sg_confidence := 0.9 |}.

Definition history_suggestion (it : interaction) : suggestion :=
  {| sg_text := i_query it; sg_type := "history";
     sg_description := "From your search history"; sg_confidence := 0.6 |}.

(** Lexicon entries whose phrase starts with the lower-cased partial query,
    in lexicon order. *)
Definition lexicon_matches (partial : string) : list suggestion :=
  map lexicon_suggestion
    (filter (fun e => String.prefix (PyStr.lower partial) (fst e)) Tables.mesh_terms_table).

(** History entries whose lower-cased query contains the lower-cased
    partial query, in the order of the history list. *)
Definition history_matches (p : processor) (partial : string) : list suggestion :=
  map history_suggestion
    (filter (fun it => PyStr.contains (PyStr.lower partial) (PyStr.lower (i_query it)))
            (query_history p)).

(** The interaction [_update_user_model] appends. *)
Definition interaction_of (query : string) (ctx : context) (now : datetime) : interaction :=
  {| i_query := query; i_timestamp := now; i_context := ctx; i_processed := true;
            i_complexity := None |}.

(** A sequence of [process_query] calls on one processor. *)
Fixpoint process_all (p : processor) (reqs : list (string * context * datetime)) : processor :=
  match reqs with
  | [] => p
  | (q, ctx, now) :: rest => process_all (fst (process_query p q ctx now)) rest
  end.

End SuggestionRule.


(* ------------------------------------------------------------------ *)
(** ** Printing integers and reading the calendar *)

Module PyFmt.

(** [str(n)] of a Python int, as in [f'{n}']. *)
Definition show_Z (z : Z) : string := NilZero.string_of_int (Z.to_int z).

End PyFmt.

Module Calendar.
Local Open Scope Z_scope.

(** [d.year] for the datetime [d] read as microseconds since
    1970-01-01 00:00 (proleptic Gregorian calendar): the day number is
    turned into a civil date by the usual era/day-of-era computation, with
    years starting on March 1st. *)
Definition year_of (t : Py.datetime) : Z :=
  let days := t / 86400000000 in
  let z := days + 719468 in
  let era := z / 146097 in
  let doe := z - era * 146097 in
  let yoe := (doe - doe / 1460 + doe / 36524 - doe / 146096) / 365 in
  let y := yoe + era * 400 in
  let doy := doe - (365 * yoe + yoe / 4 - yoe / 100) in
  let mp := (5 * doy + 2) / 153 in
  let m := if mp <? 10 then mp + 3 else mp - 9 in
  if m <=? 2 then y + 1 else y.

End Calendar.

(* ------------------------------------------------------------------ *)
(** ** [EnhancedPubMedSearch]: paper records, queries and the search *)

Module PubMedPipeline.
Import Py MLQueryProcessor EnhancedPubMedSearch.
Open Scope Q_scope.

(** [d.get(k, default)] for a key that holds a value or is absent. *)
Definition get {A} (o : option A) (d : A) : A :=
  match o with Some v => v | None => d end.

(** A JSON value the code only tests for being a [str]. *)
Inductive pyscalar : Type :=
| PStr (s : string)
| POther.

(** An entry of the ['authors'] list: a dict with its optional ['name']
    and ['affiliation'] keys, or any other value with its [str()]. *)
Inductive author_val : Type :=
| AuthorDict (name : option string) (affiliation : option string)
| AuthorOther (printed : string).

Record author := { au_name : string; au_affiliation : option string }.

(** An entry of the ['articleids'] list: a dict with its optional
    ['idtype'] and ['value'] keys, or any other value. *)
Inductive article_id : Type :=
| ArticleIdDict (idtype : option string) (value : option string)
| ArticleIdOther.

(** An eSummary record: each modelled key holds a string (or list) or is
    absent; [s_other_keys] are the names of the remaining keys. *)
Record summary := {
  s_title : option string;
  s_abstract : option string;
  s_authors : option (list author_val);
  s_pubdate : option pyscalar;
  s_source : option string;
  s_pubtype : option (list string);
  s_articleids : option (list article_id);
  s_error : option string;
  s_other_keys : list string }.

(** [not summary]: the dict has no key at all. *)
Definition summary_empty (s : summary) : bool :=
  match s_title s, s_abstract s, s_authors s, s_pubdate s, s_source s, s_pubtype s,
        s_articleids s, s_error s, s_other_keys s with
  | None, None, None, None, None, None, None, None, [] => true
  | _, _, _, _, _, _, _, _, _ => false
  end.

(** [_process_authors(authors)] *)
Definition process_authors (authors : list author_val) : list author :=
  match authors with
  | [] => []
  | _ =>
      map (fun a =>
        match a with
        | AuthorDict n aff => {| au_name := get n "Unknown Author"; au_affiliation := aff |}
        | AuthorOther s => {| au_name := s; au_affiliation := None |}
        end) (firstn 10 authors)
  end.

(** [\d]: in the Latin-1 range the decimal digits are [0] to [9]. *)
Definition is_digit (c : ascii) : bool :=
  (48 <=? nat_of_ascii c)%nat && (nat_of_ascii c <=? 57)%nat.

Definition digit_val (c : ascii) : Z := (Z.of_nat (nat_of_ascii c) - 48)%Z.

(** [\b(\d{4})\b] at this position, with [int()] of group 1. *)
Definition year_at (prev : option ascii) (s : string) : option Z :=
  match s with
  | String a (String b (String c (String d rest))) =>
      if Regex.boundary prev (Some a) && is_digit a && is_digit b && is_digit c
         && is_digit d && Regex.boundary (Some d) (Regex.head rest)
      then Some (digit_val a * 1000 + digit_val b * 100 + digit_val c * 10 + digit_val d)%Z
      else None
  | _ => None
  end.

(** [re.search(r'\b(\d{4})\b', s)], first match from the left. *)
Fixpoint search_year (prev : option ascii) (s : string) : option Z :=
  match year_at prev s with
  | Some y => Some y
  | None =>
      match s with
      | EmptyString => None
      | String c r => search_year (Some c) r
      end
  end.

(** [_extract_year(pubdate)]: a missing, empty or non-string value gives
    [None]. *)
Definition extract_year (pubdate : option pyscalar) : option Z :=
  match pubdate with
  | Some (PStr s) => if String.eqb s EmptyString then None else search_year None s
  | _ => None
  end.

(** [_extract_fields_of_study(summary)] *)
Definition extract_fields_of_study (s : summary) : list string :=
  let fields :=
    flat_map (fun pub_type =>
      ((if PyStr.contains "Clinical Trial" pub_type then ["Medicine"] else [])
       ++ (if PyStr.contains "Review" pub_type then ["Literature Review"] else []))%list)
      (get (s_pubtype s) []) in
  match fields with
  | [] => ["Medicine"]
  | _ => fields
  end.

(** [_extract_doi(article_ids)] *)
Fixpoint extract_doi (article_ids : list article_id) : option string :=
  match article_ids with
  | [] => None
  | ArticleIdDict (Some t) v :: r => if String.eqb t "doi" then v else extract_doi r
  | _ :: r => extract_doi r
  end.

(** The longest prefix of word characters. *)
Fixpoint word_prefix (s : string) : string :=
  match s with
  | String c r => if PyChar.is_word c then String c (word_prefix r) else EmptyString
  | EmptyString => EmptyString
  end.

(** [\b\w{4,}\b] at this position: the greedy [\w{4,}] takes the whole run
    of word characters, after which [\b] holds; a run shorter than four
    characters does not match. *)
Definition keyword_at (prev : option ascii) (s : string) : option string :=
  if Regex.boundary prev (Regex.head s) then
    let w := word_prefix s in
    if (4 <=? String.length w)%nat then Some w else None
  else None.

(** [re.findall(r'\b\w{4,}\b', s)]; [skip] counts the characters of the
    last match still to be consumed. *)
Fixpoint findall_keywords_aux (prev : option ascii) (skip : nat) (s : string) : list string :=
  match s with
  | EmptyString => []
  | String c r =>
      match skip with
      | S k => findall_keywords_aux (Some c) k r
      | O =>
          match keyword_at prev s with
          | Some w => w :: findall_keywords_aux (Some c) (String.length w - 1) r
          | None => findall_keywords_aux (Some c) 0 r
          end
      end
  end.

Definition findall_keywords (s : string) : list string := findall_keywords_aux None 0 s.

(** [_extract_keywords(summary)] *)
Definition extract_keywords (s : summary) : list string :=
  let t := get (s_title s) EmptyString in
  if String.eqb t EmptyString then [] else firstn 5 (findall_keywords (PyStr.lower t)).

(** [_extract_mesh_terms(summary)] and [_check_open_access(summary)] *)
Definition extract_mesh_terms (s : summary) : list string := [].

Definition check_open_access (s : summary) : bool := false.

(** The paper dict of [_process_paper_summary]; its two citation counts
    are always [None] and are left out. *)
Record pubmed_paper := {
  pp_paper_id : string;
  pp_pmid : string;
  pp_title : string;
  pp_abstract : string;
  pp_authors : list author;
  pp_year : option Z;
  pp_journal : string;
  pp_venue : string;
  pp_url : string;
  pp_fields_of_study : list string;
  pp_publication_date : option pyscalar;
  pp_publication_types : list string;
  pp_doi : option string;
  pp_keywords : list string;
  pp_mesh_terms : list string;
  pp_is_open_access : bool }.

(** [_process_paper_summary(pmid, summary)] *)
Definition process_paper_summary (pmid : string) (s : summary) : option pubmed_paper :=
  if summary_empty s || truthy (s_error s) then None else
  Some {| pp_paper_id := "pubmed_" ++ pmid;
          pp_pmid := pmid;
          pp_title := get (s_title s) "Untitled";
          pp_abstract := get (s_abstract s) "No abstract available";
          pp_authors := process_authors (get (s_authors s) []);
          pp_year := extract_year (s_pubdate s);
          pp_journal := get (s_source s) "Unknown Journal";
          pp_venue := get (s_source s) "Unknown Venue";
          pp_url := "https://pubmed.ncbi.nlm.nih.gov/" ++ pmid ++ "/";
          pp_fields_of_study := extract_fields_of_study s;
          pp_publication_date := s_pubdate s;
          pp_publication_types := get (s_pubtype s) [];
          pp_doi := extract_doi (get (s_articleids s) []);
          pp_keywords := extract_keywords s;
          pp_mesh_terms := extract_mesh_terms s;
          pp_is_open_access := check_open_access s |}.

(** The keys of a paper dict the scoring reads. *)
Definition ranking_view (pp : pubmed_paper) : paper :=
  {| paper_id := pp_paper_id pp; title := pp_title pp; abstract := pp_abstract pp;
     year := pp_year pp; publication_types := pp_publication_types pp |}.

(** A value of the ['result'] dict of an eSummary response: a summary
    dict, or a list (the ['uids'] entry). *)
Inductive result_val : Type :=
| RSummary (s : summary)
| RList (xs : list string).

(** One iteration of the loop of [_fetch_paper_details]. *)
Definition process_result_item (item : string * result_val) : list pubmed_paper :=
  let '(pmid, v) := item in
  if String.eqb pmid "uids" then [] else
  match v with
  | RSummary s =>
      match process_paper_summary pmid s with Some pp => [pp] | None => [] end
  | RList _ => []   (* [None] for [[]]; on a non-empty list [.get] raises,
                       the error is caught and logged *)
  end.

(** The ['esearchresult'] dict: its ['idlist'] ([[]] when absent) and its
    ['count'] when present. *)
Record esearch_result := { idlist : list string; count : option string }.

(** An exception: one of the modelled code, or one raised by a request. *)
Inductive error : Type :=
| PyError (e : exn)
| RequestError (msg : string).

(** The result dict of [search_papers]; [sr_total = None] is the int [0]
    default, [sr_explanation = None] a dict without that key. *)
Record search_result := {
  sr_papers : list (pubmed_paper * option Q);
  sr_total : option string;
  sr_ml_enhanced : bool;
  sr_confidence : Q;
  sr_explanation : option (list string) }.

(** [_build_pubmed_query(ml_params, original_query)] on a parameters dict;
    [date_range['start']] is the [isoformat()] of the start datetime, which
    [fromisoformat] reads back. *)
Definition build_pubmed_query (ml : search_params) (original_query : string) : string :=
  let part1 :=
    if String.eqb (sp_query ml) EmptyString
    then ["(" ++ original_query ++ "[Title/Abstract])"] else [sp_query ml] in
  let adv := sp_advanced ml in
  let sts := match adv with Some a => adv_study_types a | None => [] end in
  let part2 :=
    match sts with
    | [] => []
    | _ => ["AND (" ++ join " OR " (map (fun st => quote st "[Publication Type]") sts) ++ ")"]
    end in
  let dr := match adv with Some a => adv_date_range a | None => None end in
  let part3 :=
    match dr with
    | Some d => ["AND " ++ PyFmt.show_Z (Calendar.year_of d) ++ ":3000[Date - Publication]"]
    | None => []
    end in
  let langs := match adv with Some a => adv_languages a | None => [] end in
  let part4 :=
    if existsb (String.eqb "eng") langs
    then ["AND " ++ quote "english" "[Language]"] else [] in
  join " " (part1 ++ part2 ++ part3 ++ part4)%list.

(** What [_calculate_relevance_score] reads from a parameters dict: it has
    no ['focus'] key. *)
Definition ml_params_of (ml : search_params) : ml_params :=
  {| focus_primary := None;
     advanced_study_types :=
       match sp_advanced ml with Some a => adv_study_types a | None => [] end |}.

(** [_apply_ml_ranking] on paper dicts. *)
Definition apply_ml_ranking_papers (papers : list pubmed_paper) (mp : ml_params)
    (original_query : string) (now_year : Z) : list (pubmed_paper * Q) :=
  sort_desc snd
    (map (fun pp => (pp, calculate_relevance_score (ranking_view pp) mp original_query now_year))
         papers).

(** [get_search_suggestions(partial_query)] of the search class. *)
Definition get_search_suggestions (p : processor) (partial_query : string) : list suggestion :=
  firstn 8 (MLQueryProcessor.get_search_suggestions p partial_query).

Section Network.

(** [_perform_esearch(query, offset, limit)]: the eSearch request, which
    raises when the request fails or its response is not ok. *)
Variable perform_esearch : string -> Z -> Z -> (error + esearch_result).

(** The eSummary request of [_fetch_paper_details], which raises when the
    request fails or its response is not ok, and otherwise gives the items
    of the ['result'] dict of the response in order. *)
Variable esummary : list string -> (error + list (string * result_val)).

(** The context dict [search_papers] passes to [process_query] (offset,
    limit, filters, timestamp), as keys and printed values. *)
Variable search_context : Z -> Z -> list (string * string) -> datetime -> context.

(** [_fetch_paper_details(pmids)] *)
Definition fetch_paper_details (pmids : list string) : error + list pubmed_paper :=
  match pmids with
  | [] => inr []
  | _ =>
      match esummary pmids with
      | inl e => inl e
      | inr items => inr (flat_map process_result_item items)
      end
  end.

(** [_fallback_search(query, offset, limit)] *)
Definition fallback_search (query : string) (offset limit : Z) : error + search_result :=
  let simple_query := quote query "[Title/Abstract]" in
  match perform_esearch simple_query offset limit with
  | inl e => inl e
  | inr sr =>
      match idlist sr with
      | [] =>
          inr {| sr_papers := []; sr_total := None; sr_ml_enhanced := false;
                 sr_confidence := 0; sr_explanation := None |}
      | ids =>
          match fetch_paper_details ids with
          | inl e => inl e
          | inr papers =>
              inr {| sr_papers := map (fun pp => (pp, None)) papers; sr_total := count sr;
                     sr_ml_enhanced := false; sr_confidence := 0.3;
                     sr_explanation := Some ["Using basic keyword search"] |}
          end
      end
  end.

(** [search_papers(query, offset, limit, filters)]: the new processor
    state and the result.  Every exception of the [try] block, including
    one of the [_fallback_search] call inside it, leads to
    [_fallback_search]; [_log_search_analytics] only logs. *)
Definition search_papers (p : processor) (query : string) (offset limit : Z)
    (filters : list (string * string)) (now : datetime) : processor * (error + search_result) :=
  let '(p', ml) := process_query p query (search_context offset limit filters now) now in
  let attempt :=
    match ml with
    | PyCoro _ => inl (PyError AttributeError)   (* [ml_params.get('query')] *)
    | PyVal sp =>
        match perform_esearch (build_pubmed_query sp query) offset limit with
        | inl e => inl e
        | inr sr =>
            match idlist sr with
            | [] => fallback_search query offset limit
            | ids =>
                match fetch_paper_details ids with
                | inl e => inl e
                | inr papers =>
                    inr {| sr_papers :=
                             map (fun ps => (fst ps, Some (snd ps)))
                               (apply_ml_ranking_papers papers (ml_params_of sp) query
                                  (Calendar.year_of now));
                           sr_total := count sr;
                           sr_ml_enhanced := true;
                           sr_confidence := sp_confidence sp;
                           sr_explanation := Some (sp_explanation sp) |}
                end
            end
        end
    end in
  (p', match attempt with
       | inl _ => fallback_search query offset limit
       | inr r => inr r
       end).

End Network.

End PubMedPipeline.

(* ================================================================== *)
(** * Properties *)

(** ** Character facts *)

Module CharFacts.
Import PyChar.

Ltac all_ascii c := destruct c as [[] [] [] [] [] [] [] []]; reflexivity.

Lemma lower_idem (c : ascii) : lower (lower c) = lower c.
Proof. all_ascii c. Qed.

Lemma is_word_lower (c : ascii) : is_word (lower c) = is_word c.
Proof. all_ascii c. Qed.

Lemma is_space_lower (c : ascii) : is_space (lower c) = is_space c.
Proof. all_ascii c. Qed.

Lemma word_not_space (c : ascii) : is_word c = true -> is_space c = false.
Proof. destruct c as [[] [] [] [] [] [] [] []]; vm_compute; congruence. Qed.

Lemma allowed_space (c : ascii) :
  NormalForm.allowed_char c = true -> is_space c = true -> c = " "%char.
Proof. destruct c as [[] [] [] [] [] [] [] []]; vm_compute; congruence. Qed.

End CharFacts.

Module NormalizeFacts.
Import PyChar PyStr Normalize NormalForm CharFacts.

Lemma all_chars_lower (s : string) : all_chars lowered (PyStr.lower s) = true.
Proof.
  induction s as [|c r IH]; simpl; auto.
  unfold lowered; rewrite lower_idem, Ascii.eqb_refl; auto.
Qed.

Lemma lower_fixed (s : string) : all_chars lowered s = true -> PyStr.lower s = s.
Proof.
  induction s as [|c r IH]; simpl; auto.
  unfold lowered; intros H; apply andb_prop in H as [H1 H2].
  apply Ascii.eqb_eq in H1; rewrite H1, IH; auto.
Qed.

Lemma lower_fixed_all (s : string) : PyStr.lower s = s -> all_chars lowered s = true.
Proof. intros H; rewrite <- H; apply all_chars_lower. Qed.

Lemma all_chars_lstrip f s : all_chars f s = true -> all_chars f (lstrip s) = true.
Proof.
  induction s as [|c r IH]; simpl; auto.
  intros H; destruct (is_space c); simpl; auto.
  apply andb_prop in H as [_ H]; auto.
Qed.

Lemma all_chars_rstrip f s : all_chars f s = true -> all_chars f (rstrip s) = true.
Proof.
  induction s as [|c r IH]; simpl; auto.
  intros H; apply andb_prop in H as [H1 H2].
  destruct (is_space c && String.eqb (rstrip r) EmptyString); simpl; auto.
  rewrite H1; auto.
Qed.

Lemma lstrip_not_start s : starts_space (lstrip s) = false.
Proof.
  induction s as [|c r IH]; simpl; auto.
  destruct (is_space c) eqn:E; simpl; auto.
Qed.

Lemma rstrip_not_end s : ends_space (rstrip s) = false.
Proof.
  induction s as [|c r IH]; simpl; auto.
  destruct (is_space c) eqn:E; destruct (rstrip r) as [|d r'] eqn:R; simpl in *; auto.
Qed.

Lemma rstrip_start s : starts_space s = false -> starts_space (rstrip s) = false.
Proof.
  destruct s as [|c r]; simpl; auto.
  intros H; rewrite H; simpl; auto.
Qed.

Lemma no_double_tail c r : no_double_space (String c r) = true -> no_double_space r = true.
Proof.
  destruct r as [|d r]; simpl; auto.
  intros H; apply andb_prop in H as [_ H]; exact H.
Qed.

Lemma no_double_lstrip s : no_double_space s = true -> no_double_space (lstrip s) = true.
Proof.
  induction s as [|c r IH]; auto.
  intros H; simpl lstrip; destruct (is_space c); auto.
  apply IH; eapply no_double_tail; eauto.
Qed.

Lemma no_double_rstrip s : no_double_space s = true -> no_double_space (rstrip s) = true.
Proof.
  induction s as [|c r IH]; auto.
  intros H.
  assert (Hr : no_double_space r = true) by (eapply no_double_tail; eauto).
  specialize (IH Hr); simpl rstrip.
  destruct (is_space c && String.eqb (rstrip r) EmptyString) eqn:E; simpl; auto.
  destruct (rstrip r) as [|d r'] eqn:R; [reflexivity|].
  change (negb (is_space c && is_space d) && no_double_space (String d r') = true).
  rewrite IH, andb_true_r.
  destruct r as [|d0 r0]; simpl in R; [discriminate|].
  simpl in H; apply andb_prop in H as [H _].
  destruct (is_space d0 && String.eqb (rstrip r0) EmptyString) eqn:E0.
  - discriminate.
  - injection R as <- _; exact H.
Qed.

Lemma sub_nonword_ok s : all_chars lowered s = true -> all_chars sub_ok (sub_nonword s) = true.
Proof.
  induction s as [|c r IH]; cbn [sub_nonword all_chars]; auto.
  intros H; apply andb_prop in H as [H1 H2]; rewrite IH by exact H2.
  unfold sub_ok.
  destruct (is_word c || is_space c || Ascii.eqb c "-"%char) eqn:E.
  - rewrite H1, E; reflexivity.
  - reflexivity.
Qed.

Lemma collapse_chars b s : all_chars sub_ok s = true -> all_chars normal_char (collapse_ws_aux b s) = true.
Proof.
  revert b; induction s as [|c r IH]; intros b; simpl; auto.
  intros H; apply andb_prop in H as [H1 H2].
  destruct (is_space c) eqn:Sp.
  - destruct b; simpl; auto.
  - simpl; rewrite IH by exact H2; rewrite andb_true_r.
    unfold sub_ok in H1; unfold normal_char, allowed_char.
    apply andb_prop in H1 as [L A]; rewrite L, Sp in *; simpl in *.
    rewrite orb_false_r in A; rewrite A; reflexivity.
Qed.

Lemma collapse_shape b s :
  no_double_space (collapse_ws_aux b s) = true
  /\ (b = true -> starts_space (collapse_ws_aux b s) = false).
Proof.
  revert b; induction s as [|c r IH]; intros b; simpl; auto.
  destruct (is_space c) eqn:Sp.
  - destruct b.
    + apply IH.
    + split; [|discriminate].
      destruct (IH true) as [N S]; specialize (S eq_refl).
      destruct (collapse_ws_aux true r) as [|d r'] eqn:E; auto.
      change (negb (is_space " "%char && is_space d) && no_double_space (String d r') = true).
      simpl in S; rewrite S, N; reflexivity.
  - split; [|intros _; exact Sp].
    destruct (IH false) as [N _].
    destruct (collapse_ws_aux false r) as [|d r'] eqn:E; auto.
    change (negb (is_space c && is_space d) && no_double_space (String d r') = true).
    rewrite Sp, N; reflexivity.
Qed.

Lemma normalize_shape q :
  all_chars normal_char (normalize_query q) = true
  /\ no_double_space (normalize_query q) = true
  /\ starts_space (normalize_query q) = false
  /\ ends_space (normalize_query q) = false.
Proof.
  unfold normalize_query, strip.
  set (t := collapse_ws (sub_nonword (rstrip (lstrip (PyStr.lower q))))).
  assert (Ht : all_chars normal_char t = true).
  { apply collapse_chars, sub_nonword_ok, all_chars_rstrip, all_chars_lstrip, all_chars_lower. }
  split; [|split; [|split]].
  - apply all_chars_rstrip, all_chars_lstrip, Ht.
  - apply no_double_rstrip, no_double_lstrip, collapse_shape.
  - apply rstrip_start, lstrip_not_start.
  - apply rstrip_not_end.
Qed.

Lemma lstrip_fixed s : starts_space s = false -> lstrip s = s.
Proof. destruct s as [|c r]; simpl; auto. intros H; rewrite H; reflexivity. Qed.

Lemma rstrip_fixed s : ends_space s = false -> rstrip s = s.
Proof.
  induction s as [|c r IH]; simpl; auto.
  destruct r as [|d r'].
  - intros H; rewrite H; reflexivity.
  - intros H; rewrite (IH H); rewrite andb_false_r; reflexivity.
Qed.

Lemma sub_nonword_fixed s : all_chars normal_char s = true -> sub_nonword s = s.
Proof.
  induction s as [|c r IH]; simpl; auto.
  intros H; apply andb_prop in H as [H1 H2]; rewrite (IH H2).
  unfold normal_char, allowed_char in H1; apply andb_prop in H1 as [_ A].
  destruct (is_word c) eqn:W; simpl; [reflexivity|].
  destruct (Ascii.eqb c "-"%char) eqn:M; [rewrite orb_true_r; reflexivity|].
  simpl in A; apply Ascii.eqb_eq in A; subst c; reflexivity.
Qed.

Lemma space_is_blank c : normal_char c = true -> is_space c = true -> c = " "%char.
Proof.
  unfold normal_char; intros H; apply andb_prop in H as [_ H]; apply allowed_space, H.
Qed.

Lemma collapse_fixed b s :
  all_chars normal_char s = true -> no_double_space s = true ->
  (b = true -> starts_space s = false) -> collapse_ws_aux b s = s.
Proof.
  revert b; induction s as [|c r IH]; intros b Hc Hd Hb; simpl; auto.
  simpl in Hc; apply andb_prop in Hc as [Hc1 Hc2].
  pose proof (no_double_tail _ _ Hd) as Hr.
  destruct (is_space c) eqn:Sp.
  - destruct b; [specialize (Hb eq_refl); simpl in Hb; congruence|].
    rewrite (space_is_blank _ Hc1 Sp); f_equal.
    apply IH; auto; intros _.
    destruct r as [|d r']; simpl; auto.
    simpl in Hd; rewrite Sp in Hd; simpl in Hd.
    destruct (is_space d); auto.
  - f_equal; apply IH; auto; discriminate.
Qed.

Lemma normal_form_fixed s :
  all_chars normal_char s = true -> no_double_space s = true ->
  starts_space s = false -> ends_space s = false -> normalize_query s = s.
Proof.
  intros Hc Hd Hs He.
  unfold normalize_query, strip.
  assert (Hl : all_chars lowered s = true).
  { clear -Hc; induction s as [|c r IH]; simpl in *; auto.
    apply andb_prop in Hc as [H1 H2]; unfold normal_char in H1.
    apply andb_prop in H1 as [H1 _]; rewrite H1, IH; auto. }
  rewrite (lower_fixed _ Hl), (lstrip_fixed _ Hs), (rstrip_fixed _ He).
  rewrite (sub_nonword_fixed _ Hc).
  unfold collapse_ws; rewrite (collapse_fixed false s Hc Hd) by discriminate.
  rewrite (lstrip_fixed _ Hs), (rstrip_fixed _ He); reflexivity.
Qed.

Lemma allowed_normal s :
  PyStr.lower s = s -> all_chars allowed_char s = true -> all_chars normal_char s = true.
Proof.
  intros Hl Ha; apply lower_fixed_all in Hl; revert Hl Ha.
  induction s as [|c r IH]; simpl; auto.
  intros H1 H2; apply andb_prop in H1 as [A B]; apply andb_prop in H2 as [C D].
  rewrite IH by auto; unfold normal_char; rewrite A, C; reflexivity.
Qed.

End NormalizeFacts.

(** C10: [_normalize_query] is idempotent, and every string already in
    normal form (lower-case; word characters, hyphens and single internal
    spaces only; no whitespace at either end) is a fixed point of it. *)
Theorem normalize_query_idempotent :
  (forall q, Normalize.normalize_query (Normalize.normalize_query q) = Normalize.normalize_query q)
  /\ (forall s,
        PyStr.lower s = s ->
        NormalForm.all_chars NormalForm.allowed_char s = true ->
        NormalForm.no_double_space s = true ->
        NormalForm.starts_space s = false ->
        NormalForm.ends_space s = false ->
        Normalize.normalize_query s = s).
Proof.
  split.
  - intros q; destruct (NormalizeFacts.normalize_shape q) as (A & B & C & D).
    apply NormalizeFacts.normal_form_fixed; auto.
  - intros s Hl Ha Hd Hs He.
    apply NormalizeFacts.normal_form_fixed; auto.
    apply NormalizeFacts.allowed_normal; auto.
Qed.

Lemma normalize_query_idempotent_witness :
  Normalize.normalize_query "diabetes treatment in elderly-patients"
  = "diabetes treatment in elderly-patients"
  /\ Normalize.normalize_query (Normalize.normalize_query " COVID-19,  vaccine! ")
     = Normalize.normalize_query " COVID-19,  vaccine! ".
Proof.
  split.
  - apply (proj2 normalize_query_idempotent); vm_compute; reflexivity.
  - apply (proj1 normalize_query_idempotent).
Defined.

(** ** Facts on the Python numeric helpers *)

Module NumFacts.
Open Scope Q_scope.

Lemma lt_true a b : PyNum.lt a b = true -> a < b.
Proof.
  unfold PyNum.lt; intros H; apply negb_true_iff in H.
  apply Qnot_le_lt; intros H'; apply Qle_bool_iff in H'; congruence.
Qed.

Lemma lt_false a b : PyNum.lt a b = false -> b <= a.
Proof.
  unfold PyNum.lt; intros H; apply negb_false_iff in H; apply Qle_bool_iff; exact H.
Qed.

Lemma min_cases a b : (PyNum.min a b = a /\ a <= b) \/ (PyNum.min a b = b /\ b < a).
Proof.
  unfold PyNum.min; destruct (PyNum.lt b a) eqn:E.
  - right; split; auto; apply lt_true; auto.
  - left; split; auto; apply lt_false; auto.
Qed.

Lemma max_cases a b : (PyNum.max a b = a /\ b <= a) \/ (PyNum.max a b = b /\ a < b).
Proof.
  unfold PyNum.max; destruct (PyNum.lt a b) eqn:E.
  - right; split; auto; apply lt_true; auto.
  - left; split; auto; apply lt_false; auto.
Qed.

Lemma min_le_r a b : PyNum.min a b <= b.
Proof. destruct (min_cases a b) as [[-> H]|[-> H]]; lra. Qed.

Lemma min_ge c a b : c <= a -> c <= b -> c <= PyNum.min a b.
Proof. destruct (min_cases a b) as [[-> H]|[-> H]]; lra. Qed.

Lemma max_ge_r a b : b <= PyNum.max a b.
Proof. destruct (max_cases a b) as [[-> H]|[-> H]]; lra. Qed.

Lemma max_le c a b : a <= c -> b <= c -> PyNum.max a b <= c.
Proof. destruct (max_cases a b) as [[-> H]|[-> H]]; lra. Qed.

Lemma of_nat_nonneg n : 0 <= PyNum.of_nat n.
Proof. unfold PyNum.of_nat, Qle; simpl; lia. Qed.

Lemma div_nonneg a b : 0 <= a -> 0 <= b -> 0 <= a / b.
Proof. intros; unfold Qdiv; apply Qmult_le_0_compat; auto; apply Qinv_le_0_compat; auto. Qed.

End NumFacts.

(** ** Bounds of the scores *)

Module ScoreFacts.
Import MLQueryProcessor EnhancedPubMedSearch NumFacts.
Open Scope Q_scope.

Lemma confidence_bounds a : 0 <= calculate_search_confidence a <= 1.
Proof.
  unfold calculate_search_confidence; split.
  - apply min_ge; [apply max_ge_r | lra].
  - apply min_le_r.
Qed.

Lemma complexity_bounds q e : 0 <= assess_complexity q e <= 1.
Proof.
  unfold assess_complexity.
  assert (A : 0 <= PyNum.min (PyNum.of_nat (length (PyStr.split q)) * 0.1) 1).
  { apply min_ge; [|lra]. pose proof (of_nat_nonneg (length (PyStr.split q))); lra. }
  assert (B : 0 <= PyNum.min (PyNum.of_nat (entity_count e) * 0.15) 1).
  { apply min_ge; [|lra]. pose proof (of_nat_nonneg (entity_count e)); lra. }
  split; [apply min_ge; [destruct (Regex.search _ _); lra | lra] | apply min_le_r].
Qed.

Lemma sentiment_bounds q :
  (0 <= urgency (analyze_sentiment q) <= 1)
  /\ (0 <= uncertainty (analyze_sentiment q) <= 1)
  /\ (0 <= specificity (analyze_sentiment q) <= 1).
Proof.
  unfold analyze_sentiment; simpl.
  repeat split; match goal with |- context [if ?b then _ else _] => destruct b end; lra.
Qed.

Lemma text_relevance_bounds t q mp : 0 <= calculate_text_relevance t q mp <= 1.
Proof.
  unfold calculate_text_relevance.
  set (r1 := if PyStr.contains q t then 0.0 + 0.8 else 0.0).
  assert (H1 : 0 <= r1) by (unfold r1; destruct (PyStr.contains q t); lra).
  set (r2 := match PyStr.split q with [] => r1 | _ => _ end).
  assert (H2 : 0 <= r2).
  { unfold r2; destruct (PyStr.split q) as [|w ws]; auto.
    match goal with |- context [PyNum.of_nat ?x / PyNum.of_nat ?y] =>
      pose proof (div_nonneg _ _ (of_nat_nonneg x) (of_nat_nonneg y)) end; lra. }
  split; [|eapply Qle_trans; [apply min_le_r | lra]].
  apply min_ge; [|lra].
  destruct (Py.truthy (focus_primary mp)); [|auto].
  destruct (focus_primary mp) as [m|]; [|auto].
  destruct (PyStr.contains (PyStr.lower m) t); lra.
Qed.

Lemma relevance_lower p mp q y : 0.5 <= calculate_relevance_score p mp q y.
Proof.
  unfold calculate_relevance_score.
  pose proof (text_relevance_bounds (PyStr.lower (title p)) (PyStr.lower q) mp) as [T _].
  pose proof (text_relevance_bounds (PyStr.lower (abstract p)) (PyStr.lower q) mp) as [A _].
  set (s2 := 0.5 + _ * 0.4 + _ * 0.3).
  assert (H2 : 0.5 <= s2) by (unfold s2; lra).
  set (s3 := match year p with Some _ => _ | None => s2 end).
  assert (H3 : 0.5 <= s3).
  { unfold s3; destruct (year p); [|auto]. destruct (_ && _)%bool; lra. }
  apply min_ge; [|lra].
  destruct (advanced_study_types mp); [auto|].
  destruct (existsb _ _); lra.
Qed.

Lemma relevance_upper p mp q y : calculate_relevance_score p mp q y <= 1.
Proof. eapply Qle_trans; [apply min_le_r | lra]. Qed.

End ScoreFacts.

(** ** The stable descending sort *)

Module SortFacts.
Import EnhancedPubMedSearch NumFacts.
Open Scope Q_scope.

Section Sort.
Variable A : Type.
Variable key : A -> Q.

Definition desc (x y : A) : Prop := key y <= key x.

Lemma insert_desc_perm x l : Permutation (x :: l) (insert_desc key x l).
Proof.
  induction l as [|y ys IH]; simpl; auto.
  destruct (PyNum.lt (key x) (key y)); auto.
  eapply perm_trans; [apply perm_swap|]; auto.
Qed.

Lemma sort_desc_perm l : Permutation l (sort_desc key l).
Proof.
  induction l as [|x xs IH]; simpl; auto.
  eapply perm_trans; [apply perm_skip, IH | apply insert_desc_perm].
Qed.

Lemma insert_desc_sorted x l : Sorted desc l -> Sorted desc (insert_desc key x l).
Proof.
  induction l as [|y ys IH]; simpl; intros H; auto.
  inversion H as [|? ? Hs Hr]; subst.
  destruct (PyNum.lt (key x) (key y)) eqn:E.
  - constructor; [auto|].
    apply lt_true in E.
    destruct ys as [|z zs]; simpl.
    + constructor; unfold desc; lra.
    + inversion Hr; subst.
      destruct (PyNum.lt (key x) (key z)); constructor; unfold desc in *; lra.
  - apply lt_false in E.
    constructor; [constructor; auto | constructor; unfold desc; lra].
Qed.

Lemma sort_desc_sorted l : Sorted desc (sort_desc key l).
Proof. induction l; simpl; auto using insert_desc_sorted. Qed.

Lemma insert_desc_filter (v : Q) x l :
  filter (fun z => Qeq_bool (key z) v) (insert_desc key x l)
  = if Qeq_bool (key x) v then x :: filter (fun z => Qeq_bool (key z) v) l
    else filter (fun z => Qeq_bool (key z) v) l.
Proof.
  induction l as [|y ys IH]; simpl.
  - destruct (Qeq_bool (key x) v); auto.
  - destruct (PyNum.lt (key x) (key y)) eqn:E; simpl.
    + rewrite IH.
      destruct (Qeq_bool (key x) v) eqn:Ex, (Qeq_bool (key y) v) eqn:Ey; auto.
      apply Qeq_bool_iff in Ex; apply Qeq_bool_iff in Ey; apply lt_true in E.
      exfalso; rewrite Ex, Ey in E; apply (Qlt_irrefl v), E.
    + destruct (Qeq_bool (key x) v); reflexivity.
Qed.

Lemma sort_desc_stable (v : Q) l :
  filter (fun z => Qeq_bool (key z) v) (sort_desc key l)
  = filter (fun z => Qeq_bool (key z) v) l.
Proof.
  induction l as [|x xs IH]; simpl; auto.
  rewrite insert_desc_filter, IH; reflexivity.
Qed.

Lemma sorted_head_max a r : Sorted desc (a :: r) -> forall z, In z (a :: r) -> key z <= key a.
Proof.
  intros H z Hz.
  apply Sorted_StronglySorted in H; [|intros x y w; unfold desc; intros; lra].
  apply StronglySorted_inv in H as [_ H].
  destruct Hz as [<-|Hz]; [lra|].
  exact (proj1 (Forall_forall _ r) H z Hz).
Qed.

Lemma Qeq_bool_compat x y v : x == y -> Qeq_bool x v = Qeq_bool y v.
Proof.
  intros E; destruct (Qeq_bool x v) eqn:X, (Qeq_bool y v) eqn:Y; auto.
  - apply Qeq_bool_iff in X; apply Qeq_bool_neq in Y; exfalso; apply Y; rewrite <- E; exact X.
  - apply Qeq_bool_iff in Y; apply Qeq_bool_neq in X; exfalso; apply X; rewrite E; exact Y.
Qed.

Lemma head_key_le a r1 b r2 :
  Sorted desc (a :: r1) ->
  (forall v, filter (fun z => Qeq_bool (key z) v) (a :: r1)
             = filter (fun z => Qeq_bool (key z) v) (b :: r2)) ->
  key b <= key a.
Proof.
  intros S F.
  assert (Hb : In b (filter (fun z => Qeq_bool (key z) (key b)) (b :: r2))).
  { apply filter_In; split; [left; reflexivity|apply Qeq_bool_refl]. }
  rewrite <- F in Hb; apply filter_In in Hb as [Hz E].
  apply Qeq_bool_iff in E.
  pose proof (sorted_head_max a r1 S _ Hz) as M; lra.
Qed.

(** A descending order that keeps every equal-key subsequence of a list is
    unique. *)
Lemma sorted_filters_unique l1 l2 :
  Sorted desc l1 -> Sorted desc l2 ->
  (forall v, filter (fun z => Qeq_bool (key z) v) l1 = filter (fun z => Qeq_bool (key z) v) l2) ->
  l1 = l2.
Proof.
  revert l2; induction l1 as [|a r1 IH]; intros l2 S1 S2 F.
  - destruct l2 as [|b r2]; auto.
    specialize (F (key b)); cbn [filter] in F; rewrite Qeq_bool_refl in F; discriminate.
  - destruct l2 as [|b r2].
    + specialize (F (key a)); cbn [filter] in F; rewrite Qeq_bool_refl in F; discriminate.
    + assert (Hab : key a == key b).
      { apply Qle_antisym; [apply (head_key_le b r2 a r1 S2); intros v; symmetry; apply F|].
        apply (head_key_le a r1 b r2 S1 F). }
      assert (Fv : forall v, filter (fun z => Qeq_bool (key z) v) (a :: r1)
                             = if Qeq_bool (key a) v
                               then a :: filter (fun z => Qeq_bool (key z) v) r1
                               else filter (fun z => Qeq_bool (key z) v) r1)
        by (intros v; reflexivity).
      assert (Gv : forall v, filter (fun z => Qeq_bool (key z) v) (b :: r2)
                             = if Qeq_bool (key a) v
                               then b :: filter (fun z => Qeq_bool (key z) v) r2
                               else filter (fun z => Qeq_bool (key z) v) r2)
        by (intros v; cbn [filter]; rewrite (Qeq_bool_compat _ _ v Hab); reflexivity).
      assert (Eab : a = b).
      { pose proof (F (key a)) as Fa; rewrite Fv, Gv, Qeq_bool_refl in Fa.
        injection Fa as E _; exact E. }
      subst b; f_equal.
      apply IH; [apply Sorted_inv in S1; tauto|apply Sorted_inv in S2; tauto|].
      intros v; pose proof (F v) as Fw; rewrite Fv, Gv in Fw.
      destruct (Qeq_bool (key a) v); [injection Fw as E; exact E|exact Fw].
Qed.

End Sort.

End SortFacts.

(** ** The confidence rule *)

Module ConfidenceFacts.
Import MLQueryProcessor ConfidenceRule NumFacts.
Open Scope Q_scope.

Lemma rule_general a i r j :
  Py.truthy (primary (foc a)) = match primary (foc a) with Some _ => true | None => false end ->
  intent a = i :: r -> highest_intent (intent a) = Some j ->
  it_confidence i = it_confidence j ->
  calculate_search_confidence a == spec_confidence a.
Proof.
  intros Hp Hi Hh Hc.
  unfold calculate_search_confidence, spec_confidence.
  rewrite Hp, Hh, Hi, Hc; clear Hp Hi Hh Hc.
  unfold PyNum.lt.
  destruct (primary (foc a)), (Qle_bool (it_confidence j) 0.7),
           (Qle_bool (uncertainty (sent a)) 0.6);
    vm_compute; reflexivity.
Qed.

Lemma intents_uniform (l : list (string * list string)) q :
  Forall (fun i => it_confidence i = 0.8)
    (flat_map (fun '(it, pattern) =>
       if Regex.search pattern q
       then [{| it_type := it; it_confidence := 0.8 |}] else []) l).
Proof.
  induction l as [|[it pat] l IH]; simpl; auto.
  destruct (Regex.search pat q); simpl; auto.
Qed.

Lemma highest_in l j : highest_intent l = Some j -> In j l.
Proof.
  induction l as [|i r IH]; simpl; [discriminate|].
  destruct (highest_intent r) as [k|].
  - destruct (PyNum.lt (it_confidence i) (it_confidence k)); intros H; injection H as <-; auto.
  - intros H; injection H as <-; auto.
Qed.

Lemma highest_some i r : exists j, highest_intent (i :: r) = Some j.
Proof.
  simpl; destruct (highest_intent r) as [k|]; eauto.
  destruct (PyNum.lt (it_confidence i) (it_confidence k)); eauto.
Qed.

Lemma classify_intent_shape q :
  exists i r j, classify_intent q = i :: r /\ highest_intent (classify_intent q) = Some j
                /\ it_confidence i = it_confidence j.
Proof.
  unfold classify_intent.
  pose proof (intents_uniform Tables.intent_patterns q) as U.
  destruct (flat_map _ Tables.intent_patterns) as [|i r] eqn:E.
  - exists {| it_type := "general"; it_confidence := 0.5 |}, [],
           {| it_type := "general"; it_confidence := 0.5 |}; auto.
  - destruct (highest_some i r) as [j Hj].
    exists i, r, j; repeat split; auto.
    apply highest_in in Hj.
    rewrite Forall_forall in U.
    rewrite (U i (or_introl eq_refl)), (U j Hj); reflexivity.
Qed.

Lemma mesh_names_nonempty :
  forallb (fun '(_, m) => negb (String.eqb m EmptyString)) Tables.mesh_terms_table = true.
Proof. vm_compute; reflexivity. Qed.

Lemma extracted_mesh_nonempty q m :
  In m (mesh_terms (extract_medical_entities q)) -> String.eqb (me_mesh m) EmptyString = false.
Proof.
  intros H; unfold extract_medical_entities in H; cbn [mesh_terms] in H.
  apply in_flat_map in H as [[t ms] [Ht Hm]].
  destruct (PyStr.contains t q); [|contradiction].
  destruct Hm as [<-|[]]; simpl.
  pose proof mesh_names_nonempty as N; rewrite forallb_forall in N.
  specialize (N _ Ht); simpl in N; apply negb_true_iff in N; exact N.
Qed.

Lemma primary_truthy q :
  let a := perform_semantic_analysis q (extract_medical_entities q) in
  Py.truthy (primary (foc a)) = match primary (foc a) with Some _ => true | None => false end.
Proof.
  simpl; unfold determine_focus.
  pose proof (extracted_mesh_nonempty q) as N.
  destruct (mesh_terms (extract_medical_entities q)) as [|m rest]; simpl; auto.
  rewrite (N m (or_introl eq_refl)); reflexivity.
Qed.

End ConfidenceFacts.

(** ** History and suggestions *)

Module HistoryFacts.
Import MLQueryProcessor SuggestionRule.
Local Open Scope list_scope.

Lemma lastn_small {A} n (l : list A) : (length l <= n)%nat -> lastn n l = l.
Proof. intros H; unfold lastn; replace (length l - n)%nat with 0%nat by lia; reflexivity. Qed.

Lemma lastn_length {A} n (l : list A) : (length (lastn n l) <= n)%nat.
Proof. unfold lastn; rewrite length_skipn; lia. Qed.

Lemma lastn_app {A} n (l m : list A) : lastn n (lastn n l ++ m) = lastn n (l ++ m).
Proof.
  unfold lastn.
  assert (E : (skipn (length l - n) l ++ m = skipn (length l - n) (l ++ m))%list).
  { rewrite skipn_app; replace (length l - n - length l)%nat with 0%nat by lia; reflexivity. }
  rewrite E, skipn_skipn, length_skipn, !length_app.
  f_equal; lia.
Qed.

Lemma flat_map_select {A B} (b : A -> bool) (f : A -> B) (l : list A) :
  flat_map (fun x => if b x then [f x] else []) l = map f (filter b l).
Proof. induction l as [|x r IH]; simpl; auto. destruct (b x); simpl; rewrite IH; auto. Qed.

Lemma analyze_history p : query_history (analyze_user_patterns p) = query_history p.
Proof. unfold analyze_user_patterns; destruct (length _ <? 5)%nat; reflexivity. Qed.

Lemma process_query_history p q ctx now :
  query_history (fst (process_query p q ctx now))
  = lastn 100 (query_history p ++ [interaction_of q ctx now]).
Proof.
  unfold process_query, process_query_try; simpl.
  unfold update_user_model; rewrite analyze_history; cbn [query_history].
  fold (interaction_of q ctx now).
  destruct (100 <? length (query_history p ++ [interaction_of q ctx now]))%nat eqn:E.
  - reflexivity.
  - apply Nat.ltb_ge in E; rewrite lastn_small by exact E; reflexivity.
Qed.

Definition interactions (reqs : list (string * context * Py.datetime)) : list interaction :=
  map (fun '(q, ctx, now) => interaction_of q ctx now) reqs.

Lemma process_all_history_from p l reqs :
  query_history p = lastn 100 l ->
  query_history (process_all p reqs) = lastn 100 (l ++ interactions reqs).
Proof.
  revert p l; induction reqs as [|[[q ctx] now] rest IH]; intros p l H; cbn [process_all].
  - unfold interactions; simpl; rewrite app_nil_r; exact H.
  - rewrite (IH _ (l ++ [interaction_of q ctx now])).
    + rewrite <- app_assoc; reflexivity.
    + rewrite process_query_history, H, lastn_app; reflexivity.
Qed.

Lemma suggestions_split p partial :
  get_search_suggestions p partial
  = firstn 8 (lexicon_matches partial ++ history_matches p partial).
Proof.
  unfold get_search_suggestions, lexicon_matches, history_matches.
  rewrite (flat_map_select (fun it => PyStr.contains (PyStr.lower partial) (PyStr.lower (i_query it)))
             history_suggestion).
  f_equal; f_equal.
  rewrite <- flat_map_select; apply flat_map_ext; intros [t m]; reflexivity.
Qed.

Lemma lexicon_matches_kind partial :
  Forall (fun s => sg_type s = "mesh" /\ sg_confidence s = 0.9%Q) (lexicon_matches partial).
Proof.
  unfold lexicon_matches; apply Forall_forall; intros x Hx.
  apply in_map_iff in Hx as [y [<- _]]; split; reflexivity.
Qed.

Lemma history_matches_kind p partial :
  Forall (fun s => sg_type s = "history" /\ sg_confidence s = 0.6%Q) (history_matches p partial).
Proof.
  unfold history_matches; apply Forall_forall; intros x Hx.
  apply in_map_iff in Hx as [y [<- _]]; split; reflexivity.
Qed.

End HistoryFacts.

(* ================================================================== *)
(** * The claims *)

Section Claims.
Import MLQueryProcessor EnhancedPubMedSearch.
Open Scope Q_scope.

(** C2: the synthesized confidence, the complexity score, the three
    sentiment scores and every relevance score (alone and inside a ranked
    list) lie in [0,1]. *)
Theorem scores_in_unit_interval :
  (forall a, 0 <= calculate_search_confidence a <= 1)
  /\ (forall q e, 0 <= assess_complexity q e <= 1)
  /\ (forall q, (0 <= urgency (analyze_sentiment q) <= 1)
                /\ (0 <= uncertainty (analyze_sentiment q) <= 1)
                /\ (0 <= specificity (analyze_sentiment q) <= 1))
  /\ (forall p mp q y, 0 <= calculate_relevance_score p mp q y <= 1)
  /\ (forall papers mp q y,
        Forall (fun sp => 0 <= ml_score sp <= 1) (apply_ml_ranking papers mp q y)).
Proof.
  split; [exact ScoreFacts.confidence_bounds|].
  split; [exact ScoreFacts.complexity_bounds|].
  split; [exact ScoreFacts.sentiment_bounds|].
  assert (R : forall p mp q y, 0 <= calculate_relevance_score p mp q y <= 1).
  { intros; split; [|apply ScoreFacts.relevance_upper].
    pose proof (ScoreFacts.relevance_lower p mp q y); lra. }
  split; [exact R|].
  intros papers mp q y; unfold apply_ml_ranking.
  eapply Permutation_Forall; [apply SortFacts.sort_desc_perm|].
  apply Forall_forall; intros sp Hin; apply in_map_iff in Hin as [p [<- _]]; apply R.
Qed.

(** C3: ranking returns the scored documents ordered by descending score;
    documents of equal score keep their input order; no documents give an
    empty ranking. *)
Theorem apply_ml_ranking_stable_desc (papers : list paper) (mp : ml_params)
    (original_query : string) (now_year : Z) :
  let scored := map (fun p => (p, calculate_relevance_score p mp original_query now_year)) papers in
  let out := apply_ml_ranking papers mp original_query now_year in
  Permutation scored out
  /\ Sorted (fun x y => ml_score y <= ml_score x) out
  /\ (forall v, filter (fun z => Qeq_bool (ml_score z) v) out
                = filter (fun z => Qeq_bool (ml_score z) v) scored)
  /\ apply_ml_ranking [] mp original_query now_year = [].
Proof.
  intros scored out; unfold out, apply_ml_ranking; fold scored.
  split; [apply SortFacts.sort_desc_perm|].
  split; [apply SortFacts.sort_desc_sorted|].
  split; [intros v; apply SortFacts.sort_desc_stable | reflexivity].
Qed.

(** C6: on every analysis built by the code, the synthesized confidence is
    0.5, +0.3 if [focus.primary] is non-null, +0.2 if the highest-confidence
    intent has confidence > 0.7, -0.1 if [sentiment.uncertainty] > 0.6,
    clamped to [0,1]. *)
Theorem search_confidence_rule (query : string) :
  let a := perform_semantic_analysis query (extract_medical_entities query) in
  calculate_search_confidence a == ConfidenceRule.spec_confidence a.
Proof.
  intros a.
  destruct (ConfidenceFacts.classify_intent_shape query) as (i & r & j & Hi & Hh & Hc).
  apply (ConfidenceFacts.rule_general a i r j); auto.
  apply ConfidenceFacts.primary_truthy.
Qed.

(** C9: every relevance score is at least 0.5; a document unrelated to the
    query gets exactly 0.5. *)
Theorem relevance_score_at_least_half :
  (forall p mp original_query now_year,
     0.5 <= calculate_relevance_score p mp original_query now_year)
  /\ calculate_relevance_score
       {| paper_id := "pubmed_1"; title := "Bone density in athletes";
          abstract := "No abstract available"; year := Some 2001%Z;
          publication_types := ["Journal Article"] |}
       {| focus_primary := None; advanced_study_types := [] |}
       "diabetes treatment" 2026%Z == 0.5.
Proof.
  split; [exact ScoreFacts.relevance_lower|].
  vm_compute; reflexivity.
Qed.


(** C1: [process_query] never raises, but it returns the coroutine object
    of [_generate_search_parameters] instead of a parameters dict: the
    [async def] stages are called without [await], so nothing in the [try]
    block fails, and awaiting the result raises [TypeError] (the analysis
    it reads is itself an un-awaited coroutine) outside the [try].  The
    fallback parameters are never returned. *)
Theorem process_query_returns_unawaited_coroutine (p : processor) (user_query : string)
    (ctx : context) (now now' : Py.datetime) :
  (exists body, snd (process_query p user_query ctx now) = Py.PyCoro body)
  /\ Py.await (snd (process_query p user_query ctx now)) now' = inl Py.TypeError
  /\ snd (process_query p user_query ctx now) <> Py.PyVal (basic_query_processing user_query).
Proof.
  split; [eexists; reflexivity|].
  split; [reflexivity | discriminate].
Qed.

(** C4: on "diabetes treatment in elderly patients" the entities hold the
    mesh concept "Diabetes Mellitus" and the age demographic ["elderly"],
    and the confidence of the analysis is 0.8; but no intent is
    [treatment] ([\btreat\b] does not match inside "treatment"), the
    intent list is [[general 0.5]], and [process_query] itself yields no
    parameters (see C1). *)
Theorem diabetes_query_evaluation :
  let nq := Normalize.normalize_query "diabetes treatment in elderly patients" in
  let e := extract_medical_entities nq in
  let a := perform_semantic_analysis nq e in
  map me_mesh (mesh_terms e) = ["Diabetes Mellitus"]
  /\ demographics e = [{| de_type := "age"; de_values := ["elderly"]; de_confidence := 0.8 |}]
  /\ intent a = [{| it_type := "general"; it_confidence := 0.5 |}]
  /\ ~ (exists i, In i (intent a) /\ it_type i = "treatment")
  /\ calculate_search_confidence a == 0.8
  /\ Py.await (snd (process_query new_processor "diabetes treatment in elderly patients" [] 0%Z))
       0%Z = inl Py.TypeError.
Proof.
  intros nq e a.
  assert (Hi : intent a = [{| it_type := "general"; it_confidence := 0.5 |}])
    by (vm_compute; reflexivity).
  split; [vm_compute; reflexivity|].
  split; [vm_compute; reflexivity|].
  split; [exact Hi|].
  split.
  - rewrite Hi; intros [i [[<-|[]] Ht]]; discriminate Ht.
  - split; [vm_compute; reflexivity | reflexivity].
Qed.

(** C5 (as stated, refuted): two queries processed in turn are suggested in
    the order they entered the history, oldest first, not most recent
    first. *)
Lemma suggestions_history_order_counterexample :
  let p := SuggestionRule.process_all new_processor
             [("zz first", [], 1%Z); ("zz second", [], 2%Z)] in
  map i_query (query_history p) = ["zz first"; "zz second"]
  /\ map sg_text (get_search_suggestions p "zz") = ["zz first"; "zz second"]
  /\ map sg_text (get_search_suggestions p "zz") <> ["zz second"; "zz first"].
Proof.
  vm_compute; split; [reflexivity|split; [reflexivity|discriminate]].
Qed.

(** C5 (amended): the suggestions are the lexicon entries whose phrase
    starts with the lower-cased partial query (confidence 0.9, lexicon
    order), then the history entries whose lower-cased query contains the
    lower-cased partial query (confidence 0.6, history-list order, oldest
    first), the concatenation cut to its first 8 entries. *)
Theorem get_search_suggestions_order (p : processor) (partial_query : string) :
  let L := SuggestionRule.lexicon_matches partial_query in
  let H := SuggestionRule.history_matches p partial_query in
  get_search_suggestions p partial_query = (firstn 8 L ++ firstn (8 - length L)%nat H)%list
  /\ (length (get_search_suggestions p partial_query) <= 8)%nat
  /\ Forall (fun s => sg_type s = "mesh" /\ sg_confidence s = 0.9) L
  /\ Forall (fun s => sg_type s = "history" /\ sg_confidence s = 0.6) H.
Proof.
  intros L H.
  pose proof (HistoryFacts.lexicon_matches_kind partial_query) as KL.
  pose proof (HistoryFacts.history_matches_kind p partial_query) as KH.
  rewrite HistoryFacts.suggestions_split.
  change (SuggestionRule.lexicon_matches partial_query) with L in KL |- *.
  change (SuggestionRule.history_matches p partial_query) with H in KH |- *.
  clearbody L H.
  split; [apply firstn_app|].
  split; [rewrite length_firstn; apply Nat.le_min_l|].
  split; assumption.
Qed.

(** C7: two runs on the same query and context give the same results.
    The object [process_query] returns gives the same outcome from any
    processor state, for any clock reading at the call and at the
    [await].  The parameters the three stages build when each is awaited
    depend on the clock only through [date_range], which is one year
    before the reading when urgency is above 0.7 and [None] otherwise.
    The order [_apply_ml_ranking] returns, ties included, is the only
    descending order of the scored papers that keeps their equal-score
    subsequences. *)
Theorem process_query_deterministic (p1 p2 : processor) (user_query : string)
    (ctx : context) (now1 now2 t1 t2 : Py.datetime) :
  let nq := Normalize.normalize_query user_query in
  let an := perform_semantic_analysis nq (extract_medical_entities nq) in
  Py.await (snd (process_query p1 user_query ctx now1)) t1
    = Py.await (snd (process_query p2 user_query ctx now2)) t2
  /\ erase_date_range (generate_search_parameters an ctx t1)
     = erase_date_range (generate_search_parameters an ctx t2)
  /\ option_map adv_date_range (sp_advanced (generate_search_parameters an ctx t1))
     = Some (if PyNum.lt 0.7 (urgency (sent an))
             then Some (t1 - 365 * 86400 * 1000000)%Z else None)
  /\ (forall papers mp original_query now_year out,
        Sorted (fun x y => ml_score y <= ml_score x) out ->
        (forall v, filter (fun z => Qeq_bool (ml_score z) v) out
                   = filter (fun z => Qeq_bool (ml_score z) v)
                       (map (fun p => (p, calculate_relevance_score p mp original_query now_year))
                            papers)) ->
        out = apply_ml_ranking papers mp original_query now_year).
Proof.
  intros nq an.
  split; [reflexivity|].
  split; [reflexivity|].
  split; [reflexivity|].
  intros papers mp original_query now_year out S F.
  unfold apply_ml_ranking.
  apply (SortFacts.sorted_filters_unique _ ml_score); [exact S|apply SortFacts.sort_desc_sorted|].
  intros v; rewrite SortFacts.sort_desc_stable; apply F.
Qed.

(** C8: after every append of [process_query] the history is the last 100
    entries of the old history followed by the new interaction, at most
    100 long; over any sequence of calls it is the last 100 of all
    interactions in append order. *)
Theorem history_bounded_fifo (p : processor) (user_query : string) (ctx : context)
    (now : Py.datetime) (reqs : list (string * context * Py.datetime)) :
  query_history (fst (process_query p user_query ctx now))
    = lastn 100 (query_history p ++ [SuggestionRule.interaction_of user_query ctx now])%list
  /\ (length (query_history (fst (process_query p user_query ctx now))) <= 100)%nat
  /\ query_history (SuggestionRule.process_all p ((user_query, ctx, now) :: reqs))
     = lastn 100 (query_history p ++ HistoryFacts.interactions ((user_query, ctx, now) :: reqs))%list
  /\ (length (query_history (SuggestionRule.process_all p ((user_query, ctx, now) :: reqs))) <= 100)%nat.
Proof.
  rewrite HistoryFacts.process_query_history.
  split; [reflexivity|].
  split; [apply HistoryFacts.lastn_length|].
  cbn [SuggestionRule.process_all].
  rewrite (HistoryFacts.process_all_history_from _
             (query_history p ++ [SuggestionRule.interaction_of user_query ctx now])%list)
    by apply HistoryFacts.process_query_history.
  rewrite <- app_assoc.
  split; [reflexivity | apply HistoryFacts.lastn_length].
Qed.

End Claims.

(* ------------------------------------------------------------------ *)
(** ** Facts on paper records *)

Module RecordFacts.
Import Py PubMedPipeline.

Lemma digit_range c : is_digit c = true -> (0 <= digit_val c <= 9)%Z.
Proof.
  unfold is_digit, digit_val; intros H; apply andb_true_iff in H as [H1 H2].
  apply Nat.leb_le in H1; apply Nat.leb_le in H2; lia.
Qed.

Lemma digit_word c : is_digit c = true -> PyChar.is_word c = true.
Proof. destruct c as [[] [] [] [] [] [] [] []]; vm_compute; congruence. Qed.

Lemma year_at_range prev s y : year_at prev s = Some y -> (0 <= y <= 9999)%Z.
Proof.
  unfold year_at.
  destruct s as [|a [|b [|c [|d rest]]]]; try discriminate.
  destruct (Regex.boundary prev (Some a) && is_digit a && is_digit b && is_digit c
            && is_digit d && Regex.boundary (Some d) (Regex.head rest)) eqn:E; [|discriminate].
  intros H; injection H as <-.
  repeat rewrite andb_true_iff in E.
  destruct E as [[[[[_ Ha] Hb] Hc] Hd] _].
  apply digit_range in Ha; apply digit_range in Hb; apply digit_range in Hc;
    apply digit_range in Hd; lia.
Qed.

Lemma search_year_range prev s y : search_year prev s = Some y -> (0 <= y <= 9999)%Z.
Proof.
  revert prev; induction s as [|c r IH]; intros prev; cbn [search_year].
  - discriminate.
  - destruct (year_at prev (String c r)) eqn:E.
    + intros H; injection H as <-; eapply year_at_range; exact E.
    + apply IH.
Qed.

Lemma extract_year_range_aux v y : extract_year v = Some y -> (0 <= y <= 9999)%Z.
Proof.
  unfold extract_year; destruct v as [[s|]|]; try discriminate.
  destruct (String.eqb s ""); [discriminate|apply search_year_range].
Qed.

(** The four digits [str(y)] gives for a year of four digits. *)
Definition four_digit_ok (y : Z) : bool :=
  match PyFmt.show_Z y with
  | String a (String b (String c (String d EmptyString))) =>
      is_digit a && is_digit b && is_digit c && is_digit d
      && Z.eqb (digit_val a * 1000 + digit_val b * 100 + digit_val c * 10 + digit_val d) y
  | _ => false
  end.

Fixpoint all_from (f : Z -> bool) (z : Z) (n : nat) : bool :=
  match n with
  | O => true
  | S k => f z && all_from f (z + 1)%Z k
  end.

Lemma all_from_spec f z n y :
  all_from f z n = true -> (z <= y < z + Z.of_nat n)%Z -> f y = true.
Proof.
  revert z; induction n as [|n IH]; intros z H Hy; simpl in *; [lia|].
  apply andb_true_iff in H as [H1 H2].
  destruct (Z.eq_dec y z) as [->|Hne]; auto.
  apply (IH (z + 1)%Z); auto; lia.
Qed.

Lemma four_digit_all : all_from four_digit_ok 1000 (Z.to_nat 9000) = true.
Proof. vm_compute; reflexivity. Qed.

Lemma show_four_digits y :
  (1000 <= y <= 9999)%Z ->
  exists a b c d,
    PyFmt.show_Z y = String a (String b (String c (String d EmptyString)))
    /\ is_digit a = true /\ is_digit b = true /\ is_digit c = true /\ is_digit d = true
    /\ (digit_val a * 1000 + digit_val b * 100 + digit_val c * 10 + digit_val d = y)%Z.
Proof.
  intros Hy.
  pose proof (all_from_spec _ _ _ y four_digit_all) as H.
  rewrite Z2Nat.id in H by lia; specialize (H ltac:(lia)).
  unfold four_digit_ok in H.
  destruct (PyFmt.show_Z y) as [|a [|b [|c [|d [|e r]]]]]; try discriminate.
  repeat rewrite andb_true_iff in H.
  destruct H as [[[[Ha Hb] Hc] Hd] He].
  exists a, b, c, d; repeat split; auto; apply Z.eqb_eq; exact He.
Qed.

Lemma contains_prefix p s : String.prefix p s = true -> PyStr.contains p s = true.
Proof. destruct s; simpl; intros ->; reflexivity. Qed.

Lemma contains_cons p c r : PyStr.contains p r = true -> PyStr.contains p (String c r) = true.
Proof. intros H; simpl; rewrite H; apply orb_true_r. Qed.

Lemma word_prefix_prefix s : String.prefix (word_prefix s) s = true.
Proof.
  induction s as [|c r IH]; simpl; auto.
  destruct (PyChar.is_word c); simpl; auto.
  destruct (Ascii.ascii_dec c c); [exact IH|congruence].
Qed.

Lemma word_prefix_chars f s :
  NormalForm.all_chars f s = true -> NormalForm.all_chars f (word_prefix s) = true.
Proof.
  induction s as [|c r IH]; simpl; auto.
  intros H; apply andb_true_iff in H as [H1 H2].
  destruct (PyChar.is_word c); simpl; auto; rewrite H1; simpl; auto.
Qed.

Lemma word_prefix_word s : NormalForm.all_chars PyChar.is_word (word_prefix s) = true.
Proof.
  induction s as [|c r IH]; simpl; auto.
  destruct (PyChar.is_word c) eqn:E; simpl; auto; rewrite E; exact IH.
Qed.

(** What a keyword match is. *)
Definition keyword_ok (t w : string) : Prop :=
  (4 <= String.length w)%nat
  /\ NormalForm.all_chars PyChar.is_word w = true
  /\ NormalForm.all_chars NormalForm.lowered w = true
  /\ PyStr.contains w t = true.

Lemma keyword_ok_cons t c w : keyword_ok t w -> keyword_ok (String c t) w.
Proof. intros (H1 & H2 & H3 & H4); repeat split; auto; apply contains_cons; auto. Qed.

Lemma keyword_at_some prev s w :
  keyword_at prev s = Some w -> w = word_prefix s /\ (4 <= String.length w)%nat.
Proof.
  unfold keyword_at; destruct (Regex.boundary prev (Regex.head s)); [|discriminate].
  destruct (4 <=? String.length (word_prefix s))%nat eqn:L; [|discriminate].
  intros H; injection H as <-; apply Nat.leb_le in L; auto.
Qed.

Lemma findall_keywords_ok prev skip s :
  NormalForm.all_chars NormalForm.lowered s = true ->
  Forall (keyword_ok s) (findall_keywords_aux prev skip s).
Proof.
  revert prev skip; induction s as [|c r IH]; intros prev skip H; cbn [findall_keywords_aux]; auto.
  assert (Hr : NormalForm.all_chars NormalForm.lowered r = true)
    by (cbn [NormalForm.all_chars] in H; apply andb_true_iff in H; tauto).
  assert (Tail : forall p k, Forall (keyword_ok (String c r)) (findall_keywords_aux p k r)).
  { intros p k; eapply Forall_impl; [|apply (IH p k Hr)]; intros w; apply keyword_ok_cons. }
  destruct skip as [|k]; auto.
  destruct (keyword_at prev (String c r)) as [w|] eqn:E; auto.
  constructor; auto.
  apply keyword_at_some in E as [-> L].
  exact (conj L (conj (word_prefix_word _) (conj (word_prefix_chars _ _ H)
           (contains_prefix _ _ (word_prefix_prefix _))))).
Qed.

Lemma in_firstn {A} n (l : list A) x : In x (firstn n l) -> In x l.
Proof. intros H; rewrite <- (firstn_skipn n l); apply in_or_app; auto. Qed.

Lemma extract_keywords_ok s :
  (length (extract_keywords s) <= 5)%nat
  /\ Forall (keyword_ok (PyStr.lower (get (s_title s) EmptyString))) (extract_keywords s).
Proof.
  unfold extract_keywords.
  destruct (String.eqb (get (s_title s) "") "").
  - split; [simpl; lia|constructor].
  - split; [apply firstn_le_length|].
    unfold findall_keywords.
    pose proof (findall_keywords_ok None 0 _ (NormalizeFacts.all_chars_lower (get (s_title s) ""))) as F.
    apply Forall_forall; intros w Hw; apply in_firstn in Hw.
    rewrite Forall_forall in F; auto.
Qed.

Lemma process_authors_length a : length (process_authors a) = Nat.min 10 (length a).
Proof. destruct a as [|x r]; [reflexivity|]. unfold process_authors; rewrite length_map, length_firstn; reflexivity. Qed.

Lemma fields_of_study_ok s :
  extract_fields_of_study s <> []
  /\ Forall (fun f => f = "Medicine" \/ f = "Literature Review") (extract_fields_of_study s)
  /\ (In "Literature Review" (extract_fields_of_study s)
      <-> exists pt, In pt (get (s_pubtype s) []) /\ PyStr.contains "Review" pt = true).
Proof.
  unfold extract_fields_of_study.
  set (g := fun pub_type : string =>
    ((if PyStr.contains "Clinical Trial" pub_type then ["Medicine"] else [])
     ++ (if PyStr.contains "Review" pub_type then ["Literature Review"] else []))%list).
  assert (G : forall pt f, In f (g pt) -> f = "Medicine" \/ f = "Literature Review").
  { intros pt f; unfold g; rewrite in_app_iff.
    destruct (PyStr.contains "Clinical Trial" pt), (PyStr.contains "Review" pt);
      simpl; intuition. }
  assert (R : forall pt, In "Literature Review" (g pt) <-> PyStr.contains "Review" pt = true).
  { intros pt; unfold g; rewrite in_app_iff.
    destruct (PyStr.contains "Clinical Trial" pt), (PyStr.contains "Review" pt);
      simpl; intuition discriminate. }
  destruct (flat_map g (get (s_pubtype s) [])) as [|f0 fs] eqn:E.
  - split; [discriminate|split; [repeat constructor; auto|]].
    split; [simpl; intros [H|[]]; discriminate|].
    intros (pt & Hin & Hc); apply R in Hc.
    assert (In "Literature Review" (flat_map g (get (s_pubtype s) []))) as H
      by (apply in_flat_map; eauto).
    rewrite E in H; destruct H.
  - rewrite <- E; split; [rewrite E; discriminate|split].
    + apply Forall_forall; intros f Hf; apply in_flat_map in Hf as (pt & _ & Hf); eauto.
    + rewrite in_flat_map; split; intros (pt & H1 & H2); exists pt; split; auto; apply R; auto.
Qed.

(** An entry that is a dict with ['idtype'] equal to ['doi']. *)
Definition is_doi_entry (a : article_id) : bool :=
  match a with
  | ArticleIdDict (Some t) _ => String.eqb t "doi"
  | _ => false
  end.

Lemma extract_doi_first l1 v l2 :
  forallb (fun a => negb (is_doi_entry a)) l1 = true ->
  extract_doi (l1 ++ ArticleIdDict (Some "doi") v :: l2) = v.
Proof.
  induction l1 as [|a r IH]; simpl; intros H.
  - reflexivity.
  - apply andb_true_iff in H as [Ha Hr].
    destruct a as [[t|] w|]; simpl in Ha |- *; auto.
    destruct (String.eqb t "doi"); [discriminate|auto].
Qed.

Lemma extract_doi_none l :
  forallb (fun a => negb (is_doi_entry a)) l = true -> extract_doi l = None.
Proof.
  induction l as [|a r IH]; simpl; intros H; auto.
  apply andb_true_iff in H as [Ha Hr].
  destruct a as [[t|] w|]; simpl in Ha |- *; auto.
  destruct (String.eqb t "doi"); [discriminate|auto].
Qed.

End RecordFacts.

Module PaperFacts.
Import Py MLQueryProcessor PubMedPipeline RecordFacts.

Lemma process_paper_summary_none pmid s :
  process_paper_summary pmid s = None <-> summary_empty s = true \/ truthy (s_error s) = true.
Proof.
  unfold process_paper_summary; rewrite <- orb_true_iff.
  destruct (summary_empty s || truthy (s_error s)); split; auto; discriminate.
Qed.

Lemma process_paper_summary_some pmid s pp :
  process_paper_summary pmid s = Some pp ->
  pp_pmid pp = pmid /\ pp_paper_id pp = "pubmed_" ++ pmid
  /\ pp_url pp = "https://pubmed.ncbi.nlm.nih.gov/" ++ pmid ++ "/"
  /\ pp_fields_of_study pp <> []
  /\ (length (pp_authors pp) <= 10)%nat
  /\ (length (pp_keywords pp) <= 5)%nat
  /\ (forall y, pp_year pp = Some y -> (0 <= y <= 9999)%Z)
  /\ pp_mesh_terms pp = [] /\ pp_is_open_access pp = false.
Proof.
  unfold process_paper_summary.
  destruct (summary_empty s || truthy (s_error s)); [discriminate|].
  intros H; injection H as <-; cbn.
  refine (conj eq_refl (conj eq_refl (conj eq_refl (conj _ (conj _ (conj _
            (conj _ (conj eq_refl eq_refl)))))))).
  - apply (proj1 (fields_of_study_ok s)).
  - rewrite process_authors_length; lia.
  - apply (proj1 (extract_keywords_ok s)).
  - intros y; apply extract_year_range_aux.
Qed.

Lemma fetch_paper_details_ids esummary pmids papers :
  fetch_paper_details esummary pmids = inr papers ->
  Forall (fun pp => pp_pmid pp <> "uids" /\ pp_paper_id pp = "pubmed_" ++ pp_pmid pp) papers.
Proof.
  unfold fetch_paper_details; destruct pmids as [|x r].
  - intros H; injection H as <-; constructor.
  - destruct (esummary (x :: r)) as [e|items]; [discriminate|].
    intros H; injection H as <-.
    apply Forall_forall; intros pp Hpp; apply in_flat_map in Hpp as [[k v] [_ Hk]].
    unfold process_result_item in Hk.
    destruct (String.eqb k "uids") eqn:U; [destruct Hk|].
    destruct v as [s|xs]; [|destruct Hk].
    destruct (process_paper_summary k s) as [pp'|] eqn:P; [|destruct Hk].
    destruct Hk as [<-|[]].
    apply process_paper_summary_some in P as (P1 & P2 & _).
    rewrite P1, P2; split; auto.
    intros E; rewrite E in U; discriminate.
Qed.

End PaperFacts.

Module RankingFacts.
Import Py MLQueryProcessor EnhancedPubMedSearch NumFacts ScoreFacts.
Open Scope Q_scope.

Lemma contains_empty t : PyStr.contains "" t = true.
Proof. destruct t; reflexivity. Qed.

Lemma text_relevance_contains t q mp :
  PyStr.contains q t = true -> 0.8 <= calculate_text_relevance t q mp.
Proof.
  intros H; unfold calculate_text_relevance; rewrite H.
  set (r2 := match PyStr.split q with [] => 0.0 + 0.8 | _ => _ end).
  assert (H2 : 0.8 <= r2).
  { unfold r2; destruct (PyStr.split q) as [|w ws]; [lra|].
    match goal with |- context [PyNum.of_nat ?x / PyNum.of_nat ?y] =>
      pose proof (div_nonneg _ _ (of_nat_nonneg x) (of_nat_nonneg y)) end; lra. }
  apply min_ge; [|lra].
  destruct (truthy (focus_primary mp)); [|auto].
  destruct (focus_primary mp) as [m|]; [|auto].
  destruct (PyStr.contains (PyStr.lower m) t); lra.
Qed.

Lemma score_from_title p mp q y :
  0.8 <= calculate_text_relevance (PyStr.lower (title p)) (PyStr.lower q) mp ->
  0.82 <= calculate_relevance_score p mp q y.
Proof.
  intros T; unfold calculate_relevance_score.
  pose proof (text_relevance_bounds (PyStr.lower (abstract p)) (PyStr.lower q) mp) as [A _].
  set (s2 := 0.5 + _ * 0.4 + _ * 0.3).
  assert (H2 : 0.82 <= s2) by (unfold s2; lra).
  set (s3 := match year p with Some _ => _ | None => s2 end).
  assert (H3 : s2 <= s3).
  { unfold s3; destruct (year p); [|lra]. destruct (_ && _)%bool; lra. }
  set (s4 := match advanced_study_types mp with [] => s3 | _ => _ end).
  assert (H4 : s3 <= s4).
  { unfold s4; destruct (advanced_study_types mp); [lra|]. destruct (existsb _ _); lra. }
  apply min_ge; lra.
Qed.

Lemma score_empty_query p mp y : calculate_relevance_score p mp "" y = 1.0.
Proof.
  assert (T : 0.8 <= calculate_text_relevance (PyStr.lower (title p)) (PyStr.lower "") mp)
    by (apply text_relevance_contains, contains_empty).
  assert (A : 0.8 <= calculate_text_relevance (PyStr.lower (abstract p)) (PyStr.lower "") mp)
    by (apply text_relevance_contains, contains_empty).
  unfold calculate_relevance_score.
  set (s2 := 0.5 + _ * 0.4 + _ * 0.3).
  assert (H2 : 1.06 <= s2) by (unfold s2; lra).
  set (s3 := match year p with Some _ => _ | None => s2 end).
  assert (H3 : s2 <= s3).
  { unfold s3; destruct (year p); [|lra]. destruct (_ && _)%bool; lra. }
  set (s4 := match advanced_study_types mp with [] => s3 | _ => _ end).
  assert (H4 : s3 <= s4).
  { unfold s4; destruct (advanced_study_types mp); [lra|]. destruct (existsb _ _); lra. }
  destruct (min_cases s4 1.0) as [[-> L]|[-> _]]; [lra|reflexivity].
Qed.

Lemma lt_irrefl c : PyNum.lt c c = false.
Proof. unfold PyNum.lt; apply negb_false_iff, Qle_bool_iff, Qle_refl. Qed.

Lemma sort_desc_const {A} (c : Q) (l : list A) :
  sort_desc snd (map (fun x => (x, c)) l) = map (fun x => (x, c)) l.
Proof.
  induction l as [|x r IH]; [reflexivity|].
  cbn [map sort_desc]; rewrite IH.
  destruct r as [|z r']; [reflexivity|].
  cbn [map insert_desc snd]; rewrite lt_irrefl; reflexivity.
Qed.

Lemma of_nat_ge n m : (m <= n)%nat -> PyNum.of_nat m <= PyNum.of_nat n.
Proof. intros H; unfold PyNum.of_nat, Qle; simpl; lia. Qed.

Lemma complexity_saturates_aux q e :
  (10 <= length (PyStr.split q))%nat -> assess_complexity q e == 1.
Proof.
  intros H; apply Qle_antisym; [apply complexity_bounds|].
  pose proof (of_nat_ge _ _ H) as N.
  assert (E : PyNum.of_nat 10 == 10) by reflexivity.
  assert (B : 0 <= PyNum.min (PyNum.of_nat (entity_count e) * 0.15) 1).
  { apply min_ge; [|lra]. pose proof (of_nat_nonneg (entity_count e)); lra. }
  assert (C1 : 1 <= PyNum.min (PyNum.of_nat (length (PyStr.split q)) * 0.1) 1)
    by (apply min_ge; lra).
  unfold assess_complexity; apply min_ge; [|lra].
  destruct (Regex.search _ _); lra.
Qed.

End RankingFacts.

Module EntityFacts.
Import MLQueryProcessor Tables.

Lemma match_lit_lower p s last m l r :
  Regex.match_lit p s last = Some (m, l, r) -> PyStr.lower m = PyStr.lower p.
Proof.
  revert s last m l r; induction p as [|pc pr IH]; intros s last m l r; simpl.
  - intros H; injection H as <- _ _; reflexivity.
  - destruct s as [|sc sr]; [discriminate|].
    destruct (Ascii.eqb (PyChar.lower pc) (PyChar.lower sc)) eqn:E; [|discriminate].
    destruct (Regex.match_lit pr sr (Some sc)) as [[[m' l'] r']|] eqn:M; [|discriminate].
    intros H; injection H as <- _ _.
    apply Ascii.eqb_eq in E; simpl; rewrite E, (IH _ _ _ _ _ M); reflexivity.
Qed.

Lemma first_alt_lower alts prev s m :
  Regex.first_alt alts prev s = Some m -> exists a, In a alts /\ PyStr.lower m = PyStr.lower a.
Proof.
  induction alts as [|a rest IH]; simpl; [discriminate|].
  destruct (Regex.boundary prev (Regex.head s)).
  - destruct (Regex.match_lit a s prev) as [[[m' l] r]|] eqn:M.
    + destruct (Regex.boundary l (Regex.head r)).
      * intros H; injection H as <-; exists a; split; auto; eapply match_lit_lower; eauto.
      * intros H; destruct (IH H) as (b & ? & ?); eauto.
    + intros H; destruct (IH H) as (b & ? & ?); eauto.
  - intros H; destruct (IH H) as (b & ? & ?); eauto.
Qed.

Lemma findall_lower alts prev skip s m :
  In m (Regex.findall_aux alts prev skip s) -> exists a, In a alts /\ PyStr.lower m = PyStr.lower a.
Proof.
  revert prev skip; induction s as [|c r IH]; intros prev skip; cbn [Regex.findall_aux].
  - intros [].
  - destruct skip as [|k]; [|apply IH].
    destruct (Regex.first_alt alts prev (String c r)) as [m'|] eqn:F; [|apply IH].
    intros [<-|H]; [eapply first_alt_lower; eauto|eapply IH; eauto].
Qed.

Lemma dedup_nodup l : NoDup (dedup l).
Proof.
  induction l as [|x r IH]; simpl; constructor.
  - rewrite filter_In; intros [_ H]; rewrite String.eqb_refl in H; discriminate.
  - apply NoDup_filter; exact IH.
Qed.

Lemma dedup_in x l : In x (dedup l) -> In x l.
Proof.
  induction l as [|y r IH]; simpl; auto.
  intros [<-|H]; auto; apply filter_In in H as [H _]; auto.
Qed.

Lemma demographic_patterns_lower t pat a :
  In (t, pat) demographic_patterns -> In a pat -> PyStr.lower a = a.
Proof.
  intros Ht Ha; unfold demographic_patterns in Ht.
  repeat (destruct Ht as [Ht|Ht]; [injection Ht as <- <-|]); [..|destruct Ht];
  repeat (destruct Ha as [<-|Ha]; [reflexivity|]); destruct Ha.
Qed.

Lemma demographics_ok q d :
  In d (demographics (extract_medical_entities q)) ->
  NoDup (de_values d) /\ de_values d <> []
  /\ exists pat, In (de_type d, pat) demographic_patterns /\ incl (de_values d) pat.
Proof.
  unfold extract_medical_entities; cbn [demographics].
  intros H; apply in_flat_map in H as [[t pat] [Hin Hd]].
  destruct (Regex.findall pat q) as [|m ms] eqn:F; [destruct Hd|].
  destruct Hd as [<-|[]]; cbn [de_values de_type].
  split; [apply dedup_nodup|split; [simpl; discriminate|]].
  exists pat; split; auto.
  intros v Hv; apply dedup_in, in_map_iff in Hv as (m' & <- & Hm).
  rewrite <- F in Hm; unfold Regex.findall in Hm.
  apply findall_lower in Hm as (a & Ha & E).
  rewrite E, (demographic_patterns_lower t pat a Hin Ha); exact Ha.
Qed.

End EntityFacts.

Module PatternFacts.
Import Py MLQueryProcessor SuggestionRule HistoryFacts NumFacts RankingFacts.
Open Scope Q_scope.

(** Every key of [d] is a domain name and its count is between 1 and [f k]. *)
Definition counts_within (f : string -> nat) (d : list (string * nat)) : Prop :=
  forall k n, In (k, n) d -> (k = "oncology" \/ k = "cardiology") /\ (1 <= n <= f k)%nat.

Lemma counts_within_weaken f g d :
  counts_within f d -> (forall k, f k <= g k)%nat -> counts_within g d.
Proof. intros H W k n Hin; destruct (H k n Hin) as [K N]; specialize (W k); split; auto; lia. Qed.

Lemma bump_in k d k' n :
  In (k', n) (bump k d) ->
  (k' = k /\ (n = 1 \/ exists n', n = S n' /\ In (k, n') d)%nat) \/ In (k', n) d.
Proof.
  induction d as [|[k0 n0] r IH]; simpl.
  - intros [H|[]]; injection H as <- <-; left; auto.
  - destruct (String.eqb k k0) eqn:E.
    + apply String.eqb_eq in E as <-.
      intros [H|H]; [injection H as <- <-; left; split; auto; right; exists n0; auto|auto].
    + intros [H|H]; [right; left; exact H|].
      destruct (IH H) as [[K [N|(n' & N & I)]]|I]; auto.
      left; split; auto; right; exists n'; auto.
Qed.

Lemma bump_counts f k d :
  counts_within f d -> (k = "oncology" \/ k = "cardiology") ->
  counts_within (fun k' => if String.eqb k' k then S (f k) else f k') (bump k d).
Proof.
  intros H K k' n Hin.
  destruct (bump_in _ _ _ _ Hin) as [[-> [->|(n' & -> & I)]]|I].
  - rewrite String.eqb_refl; split; auto; lia.
  - rewrite String.eqb_refl; destruct (H _ _ I); split; auto; lia.
  - destruct (H _ _ I) as [K' N]; split; auto.
    destruct (String.eqb k' k) eqn:E; [apply String.eqb_eq in E; subst; lia|lia].
Qed.

(** One step of the loop of [_analyze_user_patterns]. *)
Definition domain_step (d : list (string * nat)) (q : interaction) : list (string * nat) :=
  let t := i_query q in
  let d1 := if PyStr.contains "cancer" t || PyStr.contains "tumor" t
            then bump "oncology" d else d in
  if PyStr.contains "heart" t || PyStr.contains "cardiac" t
  then bump "cardiology" d1 else d1.

Lemma domain_step_counts m d q :
  counts_within (fun _ => m) d -> counts_within (fun _ => S m) (domain_step d q).
Proof.
  intros H; unfold domain_step.
  set (onc := PyStr.contains "cancer" (i_query q) || PyStr.contains "tumor" (i_query q)).
  set (card := PyStr.contains "heart" (i_query q) || PyStr.contains "cardiac" (i_query q)).
  set (d1 := if onc then bump "oncology" d else d).
  assert (H1 : counts_within (fun k => if String.eqb k "oncology" then S m else m) d1).
  { unfold d1; destruct onc.
    - eapply counts_within_weaken; [apply bump_counts; [exact H|auto]|].
      intros k; cbv beta; destruct (String.eqb k "oncology"); lia.
    - eapply counts_within_weaken; [exact H|]; intros k; cbv beta; destruct (String.eqb k _); lia. }
  destruct card.
  - eapply counts_within_weaken; [apply bump_counts; [exact H1|auto]|].
    intros k; cbv beta; destruct (String.eqb k "cardiology") eqn:E1;
      [apply String.eqb_eq in E1; subst; simpl; lia|].
    destruct (String.eqb k "oncology"); lia.
  - eapply counts_within_weaken; [exact H1|]; intros k; cbv beta; destruct (String.eqb k _); lia.
Qed.

Lemma fold_domains m d l :
  counts_within (fun _ => m) d ->
  counts_within (fun _ => (m + length l)%nat) (fold_left domain_step l d).
Proof.
  revert m d; induction l as [|q r IH]; intros m d H; simpl.
  - eapply counts_within_weaken; [exact H|]; intros; cbv beta; lia.
  - eapply counts_within_weaken; [apply (IH (S m)), domain_step_counts, H|]; intros; cbv beta; lia.
Qed.

Lemma of_nat_S n : PyNum.of_nat (S n) == PyNum.of_nat n + 1.
Proof. unfold PyNum.of_nat; rewrite Nat2Z.inj_succ; unfold Z.succ; rewrite inject_Z_plus; reflexivity. Qed.

Lemma fold_avg (l : list interaction) a :
  Forall (fun q => i_complexity q = None) l ->
  fold_left (fun acc q => acc + match i_complexity q with Some c => c | None => 0.5 end) l a
  == a + 0.5 * PyNum.of_nat (length l).
Proof.
  revert a; induction l as [|x r IH]; intros a H; simpl.
  - unfold PyNum.of_nat; simpl; ring.
  - inversion H as [|? ? Hx Hr]; subst; rewrite Hx.
    rewrite (IH _ Hr), of_nat_S; ring.
Qed.

Lemma Forall_lastn {A} (P : A -> Prop) n l : Forall P l -> Forall P (lastn n l).
Proof.
  intros H; unfold lastn; apply Forall_forall; intros x Hx.
  apply (proj1 (Forall_forall P l) H).
  rewrite <- (firstn_skipn (length l - n) l); apply in_or_app; right; exact Hx.
Qed.

Lemma analyze_patterns_ok p :
  (5 <= length (query_history p))%nat ->
  Forall (fun q => i_complexity q = None) (lastn 10 (query_history p)) ->
  query_history (analyze_user_patterns p) = query_history p
  /\ exists doms c,
       user_prefs (analyze_user_patterns p)
       = {| preferred_domains := Some doms; complexity_preference := Some c |}
       /\ c == 0.5
       /\ Forall (fun e => (fst e = "oncology" \/ fst e = "cardiology") /\ (1 <= snd e <= 10)%nat)
                 doms.
Proof.
  intros H F; unfold analyze_user_patterns.
  destruct (length (query_history p) <? 5)%nat eqn:E; [apply Nat.ltb_lt in E; lia|].
  split; [reflexivity|].
  set (recent := lastn 10 (query_history p)).
  assert (L : (5 <= length recent <= 10)%nat).
  { split; [|apply lastn_length]. unfold recent, lastn; rewrite length_skipn; lia. }
  eexists; eexists; split; [reflexivity|split].
  - rewrite (fold_avg recent _ F).
    assert (N : ~ PyNum.of_nat (length recent) == 0).
    { assert (L1 : (1 <= length recent)%nat) by lia.
      intros Z; pose proof (of_nat_ge _ _ L1) as G.
      rewrite Z in G; unfold PyNum.of_nat, Qle in G; simpl in G; lia. }
    field; exact N.
  - apply Forall_forall; intros [k n] Hin.
    change (fold_left _ recent []) with (fold_left domain_step recent []) in Hin.
    destruct (fold_domains 0 [] recent ltac:(intros ? ? [])) with k n as [K Nn]; auto.
    simpl; split; auto; lia.
Qed.

End PatternFacts.

Module PrefsFacts.
Import Py MLQueryProcessor SuggestionRule HistoryFacts PatternFacts.
Open Scope Q_scope.

Lemma process_query_state p q ctx now :
  fst (process_query p q ctx now)
  = analyze_user_patterns
      {| query_history := lastn 100 (query_history p ++ [interaction_of q ctx now]);
         user_prefs := user_prefs p |}.
Proof.
  unfold process_query, process_query_try; cbn [fst].
  unfold update_user_model; fold (interaction_of q ctx now).
  destruct (100 <? length (query_history p ++ [interaction_of q ctx now]))%nat eqn:E.
  - reflexivity.
  - apply Nat.ltb_ge in E; rewrite (lastn_small 100 _ E); reflexivity.
Qed.

Lemma prefs_small p reqs :
  (length (query_history p) + length reqs < 5)%nat ->
  user_prefs (process_all p reqs) = user_prefs p.
Proof.
  revert p; induction reqs as [|[[q ctx] now] rest IH]; intros p H; cbn [process_all]; auto.
  cbn [length] in H.
  set (h := (query_history p ++ [interaction_of q ctx now])%list).
  assert (Lh : length h = S (length (query_history p))).
  { unfold h; rewrite length_app; simpl; lia. }
  assert (E : lastn 100 h = h) by (apply lastn_small; lia).
  rewrite IH; rewrite process_query_state; fold h; rewrite E.
  - unfold analyze_user_patterns; cbn [query_history].
    destruct (length h <? 5)%nat eqn:L; [reflexivity|apply Nat.ltb_ge in L; lia].
  - rewrite analyze_history; cbn [query_history]; lia.
Qed.

Lemma process_query_no_complexity p q ctx now :
  Forall (fun it => i_complexity it = None) (query_history p) ->
  Forall (fun it => i_complexity it = None) (query_history (fst (process_query p q ctx now))).
Proof.
  intros F; rewrite process_query_history; apply Forall_lastn.
  apply Forall_app; split; [exact F|constructor; [reflexivity|constructor]].
Qed.

Lemma prefs_large p reqs :
  Forall (fun it => i_complexity it = None) (query_history p) ->
  reqs <> [] -> (5 <= length (query_history (process_all p reqs)))%nat ->
  exists c, complexity_preference (user_prefs (process_all p reqs)) = Some c /\ c == 0.5.
Proof.
  revert p; induction reqs as [|[[q ctx] now] rest IH]; intros p F Hne H; [congruence|].
  cbn [process_all] in *.
  destruct rest as [|r rest'].
  - cbn [process_all] in *.
    pose proof (process_query_no_complexity p q ctx now F) as F'.
    rewrite process_query_state in *.
    rewrite analyze_history in H, F'.
    destruct (analyze_patterns_ok _ H (Forall_lastn _ _ _ F')) as [_ (doms & c & E & C & _)].
    exists c; rewrite E; auto.
  - apply IH; [apply process_query_no_complexity, F|discriminate|exact H].
Qed.

Lemma filter_prefix_empty (l : list (string * string)) :
  filter (fun e => String.prefix (PyStr.lower "") (fst e)) l = l.
Proof.
  induction l as [|[t m] r IH]; [reflexivity|].
  cbn [filter fst]; destruct t; cbn; f_equal; exact IH.
Qed.

End PrefsFacts.

(* ================================================================== *)
(** * Further properties of the code *)

Module Extras.
Import Py Tables MLQueryProcessor EnhancedPubMedSearch PubMedPipeline SuggestionRule.
Open Scope Q_scope.

(** [_extract_year] gives [None] or a value from 0 to 9999. *)
Theorem extract_year_in_range (pubdate : option pyscalar) :
  match extract_year pubdate with
  | Some y => (0 <= y <= 9999)%Z
  | None => True
  end.
Proof.
  destruct (extract_year pubdate) as [y|] eqn:E; auto.
  exact (RecordFacts.extract_year_range_aux _ _ E).
Qed.

(** [_extract_year] reads back a four-digit year printed with [str()] at
    the start of the date, when a non-word character or the end of the
    string follows it. *)
Theorem extract_year_reads_printed_year (y : Z) (rest : string) :
  (1000 <= y <= 9999)%Z ->
  Regex.word_at (Regex.head rest) = false ->
  extract_year (Some (PStr (PyFmt.show_Z y ++ rest))) = Some y.
Proof.
  intros Hy Hr.
  destruct (RecordFacts.show_four_digits y Hy) as (a & b & c & d & E & Ha & Hb & Hc & Hd & V).
  unfold extract_year; rewrite E; cbn [String.append String.eqb].
  unfold search_year, year_at.
  unfold Regex.boundary; cbn [Regex.word_at].
  rewrite (RecordFacts.digit_word a Ha), (RecordFacts.digit_word d Hd), Ha, Hb, Hc, Hd, Hr.
  cbn; rewrite V; reflexivity.
Qed.

Lemma extract_year_reads_printed_year_witness :
  extract_year (Some (PStr (PyFmt.show_Z 2023 ++ " Jan 15"))) = Some 2023%Z.
Proof. apply extract_year_reads_printed_year; [lia|reflexivity]. Defined.

(** [_process_authors] keeps the first ten authors: its list has
    [min(10, len(authors))] entries. *)
Theorem process_authors_at_most_ten (authors : list author_val) :
  length (process_authors authors) = Nat.min 10 (length authors).
Proof. apply RecordFacts.process_authors_length. Qed.

(** [_extract_fields_of_study] never gives an empty list, gives only
    'Medicine' and 'Literature Review', and gives 'Literature Review'
    exactly when some publication type contains 'Review'. *)
Theorem fields_of_study_shape (s : summary) :
  extract_fields_of_study s <> []
  /\ Forall (fun f => f = "Medicine" \/ f = "Literature Review") (extract_fields_of_study s)
  /\ (In "Literature Review" (extract_fields_of_study s)
      <-> exists pt, In pt (get (s_pubtype s) []) /\ PyStr.contains "Review" pt = true).
Proof. apply RecordFacts.fields_of_study_ok. Qed.

(** [_extract_doi] returns the value of the first dict entry whose
    ['idtype'] is ['doi']: entries before it that are not such dicts are
    skipped, entries after it are not read. *)
Theorem extract_doi_first_doi_entry (l1 : list article_id) (v : option string)
    (l2 : list article_id) :
  forallb (fun a => negb (RecordFacts.is_doi_entry a)) l1 = true ->
  extract_doi (l1 ++ ArticleIdDict (Some "doi") v :: l2) = v.
Proof. apply RecordFacts.extract_doi_first. Qed.

Lemma extract_doi_first_doi_entry_witness :
  extract_doi ([ArticleIdOther; ArticleIdDict (Some "pubmed") (Some "123")]
               ++ ArticleIdDict (Some "doi") (Some "10.1000/x")
                  :: [ArticleIdDict (Some "doi") (Some "10.1000/y")])
  = Some "10.1000/x".
Proof. apply extract_doi_first_doi_entry; reflexivity. Defined.

(** [_extract_keywords] gives at most five keywords; each is a run of at
    least four word characters, lower-case, occurring in the lower-cased
    title. *)
Theorem extract_keywords_shape (s : summary) :
  (length (extract_keywords s) <= 5)%nat
  /\ Forall (RecordFacts.keyword_ok (PyStr.lower (get (s_title s) EmptyString)))
            (extract_keywords s).
Proof. apply RecordFacts.extract_keywords_ok. Qed.

(** [_process_paper_summary] gives [None] exactly for an empty summary or
    one with a truthy ['error']; otherwise the paper's id is
    ['pubmed_' + pmid], its URL is the PubMed page of [pmid], it has at
    least one field of study, at most ten authors, at most five keywords,
    a year from 0 to 9999 if any, no MeSH terms, and is never open
    access. *)
Theorem process_paper_summary_shape (pmid : string) (s : summary) :
  match process_paper_summary pmid s with
  | None => summary_empty s = true \/ truthy (s_error s) = true
  | Some pp =>
      summary_empty s = false /\ truthy (s_error s) = false
      /\ pp_pmid pp = pmid /\ pp_paper_id pp = "pubmed_" ++ pmid
      /\ pp_url pp = "https://pubmed.ncbi.nlm.nih.gov/" ++ pmid ++ "/"
      /\ pp_fields_of_study pp <> []
      /\ (length (pp_authors pp) <= 10)%nat
      /\ (length (pp_keywords pp) <= 5)%nat
      /\ match pp_year pp with Some y => (0 <= y <= 9999)%Z | None => True end
      /\ pp_mesh_terms pp = [] /\ pp_is_open_access pp = false
  end.
Proof.
  destruct (process_paper_summary pmid s) as [pp|] eqn:E.
  - assert (N : process_paper_summary pmid s <> None) by congruence.
    rewrite PaperFacts.process_paper_summary_none in N.
    destruct (summary_empty s), (truthy (s_error s)); try tauto.
    destruct (PaperFacts.process_paper_summary_some _ _ _ E)
      as (P1 & P2 & P3 & P4 & P5 & P6 & P7 & P8 & P9).
    repeat (split; [assumption || reflexivity|]).
    split; [destruct (pp_year pp) as [y|]; auto|split; assumption].
  - apply (PaperFacts.process_paper_summary_none pmid s); exact E.
Qed.

(** [_fetch_paper_details] never builds a paper from the ['uids'] entry,
    and every paper's id is ['pubmed_'] followed by its pmid; an empty
    pmid list gives no paper and no request. *)
Theorem fetch_paper_details_pubmed_ids esummary (pmids : list string) :
  match fetch_paper_details esummary pmids with
  | inr papers =>
      Forall (fun pp => pp_pmid pp <> "uids" /\ pp_paper_id pp = "pubmed_" ++ pp_pmid pp) papers
      /\ (pmids = [] -> papers = [])
  | inl e => esummary pmids = inl e
  end.
Proof.
  destruct (fetch_paper_details esummary pmids) as [e|papers] eqn:E.
  - unfold fetch_paper_details in E; destruct pmids; [discriminate|].
    destruct (esummary _); congruence.
  - split; [eapply PaperFacts.fetch_paper_details_ids; exact E|].
    intros ->; injection E as <-; reflexivity.
Qed.

(** A result of [_fallback_search] is never ML-enhanced and has no ML
    scores.  When eSearch returns no id it is the empty result with
    confidence 0; when eSearch returns ids it holds the papers fetched for
    them, eSearch's count and confidence 0.3.  An exception comes from one
    of the two requests. *)
Theorem fallback_search_result perform_esearch esummary (query : string) (offset limit : Z) :
  match fallback_search perform_esearch esummary query offset limit with
  | inr r =>
      sr_ml_enhanced r = false
      /\ Forall (fun ps => snd ps = None) (sr_papers r)
      /\ exists sr,
           perform_esearch (quote query "[Title/Abstract]") offset limit = inr sr
           /\ ((idlist sr = []
                /\ r = {| sr_papers := []; sr_total := None; sr_ml_enhanced := false;
                          sr_confidence := 0; sr_explanation := None |})
               \/ (idlist sr <> [] /\ sr_confidence r = 0.3 /\ sr_total r = count sr
                   /\ exists papers,
                        fetch_paper_details esummary (idlist sr) = inr papers
                        /\ sr_papers r = map (fun pp => (pp, None)) papers))
  | inl e =>
      perform_esearch (quote query "[Title/Abstract]") offset limit = inl e
      \/ exists ids, esummary ids = inl e
  end.
Proof.
  unfold fallback_search.
  destruct (perform_esearch _ offset limit) as [e|sr] eqn:S; [left; reflexivity|].
  destruct (idlist sr) as [|i ids] eqn:I.
  - split; [reflexivity|split; [constructor|]].
    exists sr; split; [reflexivity|left; split; [exact I|reflexivity]].
  - destruct (fetch_paper_details esummary (i :: ids)) as [e|papers] eqn:F.
    + right; exists (i :: ids).
      unfold fetch_paper_details in F; destruct (esummary (i :: ids)); congruence.
    + split; [reflexivity|split].
      * apply Forall_forall; intros ps Hps; apply in_map_iff in Hps as (pp & <- & _); reflexivity.
      * exists sr; split; [reflexivity|right].
        split; [rewrite I; discriminate|split; [reflexivity|split; [reflexivity|]]].
        exists papers; split; [rewrite I; exact F|reflexivity].
Qed.

(** [search_papers] always ends in [_fallback_search] with the original
    query: [process_query] returns a coroutine object, whose [.get] raises
    in [_build_pubmed_query], so the ML-enhanced branch is never taken;
    the processor still records the query. *)
Theorem search_papers_always_fallback perform_esearch esummary search_context
    (p : processor) (query : string) (offset limit : Z) (filters : list (string * string))
    (now : datetime) :
  search_papers perform_esearch esummary search_context p query offset limit filters now
  = (fst (process_query p query (search_context offset limit filters now) now),
     fallback_search perform_esearch esummary query offset limit).
Proof. reflexivity. Qed.

(** The PubMed query [_build_pubmed_query] makes from parameters of
    [_generate_search_parameters] is the ML query (or the title/abstract
    clause of the original query when the ML query is empty), then a date
    clause from the year of one year ago exactly when urgency is above
    0.7, then the English-language filter; it never has a publication-type
    clause. *)
Theorem build_query_of_generated_params (a : semantic_analysis) (ctx : context)
    (now : datetime) (original_query : string) :
  build_pubmed_query (generate_search_parameters a ctx now) original_query
  = (if String.eqb (sp_query (generate_search_parameters a ctx now)) EmptyString
     then "(" ++ original_query ++ "[Title/Abstract])"
     else sp_query (generate_search_parameters a ctx now))
    ++ (if PyNum.lt 0.7 (urgency (sent a))
        then " AND " ++ PyFmt.show_Z (Calendar.year_of (now - 365 * 86400 * 1000000)%Z)
             ++ ":3000[Date - Publication]"
        else EmptyString)
    ++ " AND " ++ quote "english" "[Language]".
Proof.
  unfold build_pubmed_query.
  set (q := sp_query (generate_search_parameters a ctx now)).
  cbn [generate_search_parameters sp_advanced adv_study_types adv_date_range adv_languages].
  destruct (String.eqb q EmptyString), (PyNum.lt 0.7 (urgency (sent a))); reflexivity.
Qed.

(** A paper whose lower-cased title contains the lower-cased query scores
    at least 0.82. *)
Theorem relevance_title_match (p : paper) (mp : ml_params) (original_query : string)
    (now_year : Z) :
  PyStr.contains (PyStr.lower original_query) (PyStr.lower (title p)) = true ->
  0.82 <= calculate_relevance_score p mp original_query now_year.
Proof.
  intros H; apply RankingFacts.score_from_title, RankingFacts.text_relevance_contains, H.
Qed.

Lemma relevance_title_match_witness :
  0.82 <= calculate_relevance_score
            {| paper_id := "pubmed_1"; title := "Metformin in Type 2 Diabetes"; abstract := "";
               year := Some 2001%Z; publication_types := [] |}
            {| focus_primary := None; advanced_study_types := [] |} "type 2 DIABETES" 2025.
Proof. apply relevance_title_match; vm_compute; reflexivity. Defined.

(** With an empty query every paper scores exactly 1.0, so the ranking
    keeps the papers in their input order. *)
Theorem empty_query_ranking_keeps_order (papers : list paper) (mp : ml_params)
    (now_year : Z) :
  apply_ml_ranking papers mp "" now_year = map (fun p => (p, 1.0)) papers.
Proof.
  unfold apply_ml_ranking.
  rewrite (map_ext _ (fun p => (p, 1.0)) (fun p => f_equal _ (RankingFacts.score_empty_query p mp now_year))).
  apply RankingFacts.sort_desc_const.
Qed.

(** [_assess_complexity] is 1 for every query of ten or more words. *)
Theorem assess_complexity_saturates (query : string) (e : entities) :
  (10 <= length (PyStr.split query))%nat -> assess_complexity query e == 1.
Proof. apply RankingFacts.complexity_saturates_aux. Qed.

Lemma assess_complexity_saturates_witness :
  assess_complexity "a b c d e f g h i j" (extract_medical_entities "a b c d e f g h i j") == 1.
Proof. apply assess_complexity_saturates; apply Nat.leb_le; vm_compute; reflexivity. Defined.

(** For a query of Latin-1 characters, each demographic entity of
    [_extract_medical_entities] has a non-empty list of distinct values,
    all alternatives (lower-case) of the pattern of its type. *)
Theorem demographics_values_from_patterns (query : string) :
  Forall (fun d =>
      NoDup (de_values d) /\ de_values d <> []
      /\ exists pat, In (de_type d, pat) demographic_patterns /\ incl (de_values d) pat)
    (demographics (extract_medical_entities query)).
Proof. apply Forall_forall; intros d Hd; exact (EntityFacts.demographics_ok query d Hd). Qed.

(** Once the history has five or more entries and none of the last ten
    carries a ['complexity'] value, [_analyze_user_patterns] sets the
    complexity preference to 0.5 whatever the queries, and counts only
    the domains 'oncology' and 'cardiology', each between 1 and 10; the
    history is unchanged. *)
Theorem analyze_user_patterns_fixed_preference (p : processor) :
  (5 <= length (query_history p))%nat ->
  Forall (fun q => i_complexity q = None) (lastn 10 (query_history p)) ->
  query_history (analyze_user_patterns p) = query_history p
  /\ exists doms c,
       user_prefs (analyze_user_patterns p)
       = {| preferred_domains := Some doms; complexity_preference := Some c |}
       /\ c == 0.5
       /\ Forall (fun e => (fst e = "oncology" \/ fst e = "cardiology") /\ (1 <= snd e <= 10)%nat)
                 doms.
Proof. intros H F; exact (PatternFacts.analyze_patterns_ok p H F). Qed.

Lemma analyze_user_patterns_fixed_preference_witness :
  exists doms c,
    user_prefs (analyze_user_patterns
                  {| query_history :=
                     map (fun q => SuggestionRule.interaction_of q [] 0%Z)
                       ["heart failure"; "breast cancer"; "cardiac tumor"; "asthma"; "covid"];
                    user_prefs := user_prefs new_processor |})
    = {| preferred_domains := Some doms; complexity_preference := Some c |} /\ c == 0.5
    /\ Forall (fun e => (fst e = "oncology" \/ fst e = "cardiology") /\ (1 <= snd e <= 10)%nat)
              doms.
Proof.
  apply analyze_user_patterns_fixed_preference; [simpl; lia|].
  cbn; repeat constructor.
Defined.

(** Starting from a new processor, the complexity preference is unset
    after fewer than five [process_query] calls and 0.5 after five or
    more, whatever the queries. *)
Theorem complexity_preference_after_queries (reqs : list (string * context * datetime)) :
  ((length reqs < 5)%nat ->
   complexity_preference (user_prefs (process_all new_processor reqs)) = None)
  /\ ((5 <= length reqs)%nat ->
      exists c, complexity_preference (user_prefs (process_all new_processor reqs)) = Some c
                /\ c == 0.5).
Proof.
  split; intros H.
  - rewrite PrefsFacts.prefs_small; [reflexivity|simpl; lia].
  - apply PrefsFacts.prefs_large; [constructor|destruct reqs; simpl in H; [lia|discriminate]|].
    rewrite (HistoryFacts.process_all_history_from new_processor [] reqs eq_refl).
    unfold lastn; rewrite length_skipn; simpl.
    unfold HistoryFacts.interactions; rewrite length_map; lia.
Qed.

Lemma complexity_preference_after_queries_witness :
  exists c,
    complexity_preference
      (user_prefs (process_all new_processor
                     (map (fun q => (q, [], 0%Z)) ["a"; "b"; "c"; "d"; "e"])))
    = Some c /\ c == 0.5.
Proof. apply complexity_preference_after_queries; simpl; lia. Defined.

(** For an empty partial query the search class suggests the first eight
    lexicon terms and nothing from the history. *)
Theorem search_suggestions_empty_partial (p : processor) :
  PubMedPipeline.get_search_suggestions p "" = map lexicon_suggestion (firstn 8 mesh_terms_table).
Proof.
  unfold PubMedPipeline.get_search_suggestions.
  rewrite HistoryFacts.suggestions_split; unfold lexicon_matches.
  rewrite PrefsFacts.filter_prefix_empty, firstn_firstn, firstn_app, length_map.
  change (8 - length mesh_terms_table)%nat with 0%nat.
  rewrite firstn_O, app_nil_r, firstn_map; reflexivity.
Qed.

End Extras.
